(** * image-to-code: the four-stage pipeline and the chat turn of [app-chat-exp.py]

    A shallow embedding of the Streamlit script [src/app-chat-exp.py]:
    [send_message_to_model] and [main], run once per user action, over an
    explicit world holding [st.session_state], the temporary files, the
    calls made to the generative model and what was put on the page.

    The generative model is not part of the repository.  It is a variable
    of the development: a function from the calls made so far and the
    content sent now to either the returned text or a raised exception. *)

From Stdlib Require Import String Ascii List Bool Lia.
From stdpp Require Import base option list strings gmap.


(** ** Values *)

(** What a Python call gives back: a value, or a raised exception with
    its message.  The exceptions are those of class [Exception], the
    ones line 153 catches. *)
Inductive result (A : Type) : Type :=
  | Ok (a : A)
  | Raise (e : string).
Arguments Ok {A} a.
Arguments Raise {A} e.

(** The dictionary built on lines 50-53. *)
Record ImageInput := {
  mime_type : string;
  data : list Byte.byte
}.

(** The argument of [chat_session.send_message]: the bare message
    (line 56) or the two-element list [[message, image_input]] (line 54). *)
Inductive Content : Type :=
  | Text (message : string)
  | TextWithImage (message : string) (image_input : ImageInput).

(** What happened on the model side: a chat session was started
    (line 45), or a content was sent and the call returned a text or
    raised. *)
Inductive ChatEvent : Type :=
  | StartChat
  | Sent (c : Content) (r : result string).

(** What the script puts on the page. *)
Inductive UiEvent : Type :=
  | st_title (body : string)
  | st_image (image : list Byte.byte) (caption : string)
  | st_write (body : string)
  | st_chat_message (role text : string)
  | st_code (body language : string)
  | st_components_html (html : string)
  | st_download_button (label data file_name mime : string)
  | st_error (body : string).

(** [st.session_state], read and written under two keys only.  A key that
    was never assigned is [None]. *)
Record SessionState := {
  refined_html : option string;
  chat_history : option (list (string * string))
}.

Record World := {
  session_state : SessionState;
  files : gmap string (list Byte.byte);
  chat_log : list ChatEvent;
  screen : list UiEvent
}.

(** One run of the script: the widgets' values for this run.  The
    uploaded picture is given by the JPEG bytes that lines 68-77 write
    for it (decoding and re-encoding belong to PIL), [tempfile_name] is
    the name [tempfile.NamedTemporaryFile] picks.  An input with a
    picture is a run in which lines 68-78 went through: a run in which
    PIL cannot open the upload or cannot save it as JPEG leaves the
    [try] before line 81 and has no input here. *)
Record Input := {
  uploaded_file : option (list Byte.byte);
  tempfile_name : string;
  button_code_ui : bool;
  chat_input : option string
}.

(** Python truth value of a [str]. *)
Definition truthy (s : string) : bool :=
  match s with
  | EmptyString => false
  | String _ _ => true
  end.

(** ** The monad of the script: state that survives an exception *)

Definition Py (A : Type) : Type := World -> result A * World.

#[global] Instance py_ret : MRet Py := fun A a w => (Ok a, w).

#[global] Instance py_bind : MBind Py := fun A B k m w =>
  match m w with
  | (Ok a, w') => k a w'
  | (Raise e, w') => (Raise e, w')
  end.

Definition raise {A : Type} (e : string) : Py A := fun w => (Raise e, w).

(** [try: body except Exception as e: handler e] *)
Definition try_except (body : Py unit) (handler : string -> Py unit) : Py unit :=
  fun w =>
    match body w with
    | (Ok tt, w') => (Ok tt, w')
    | (Raise e, w') => handler e w'
    end.

Definition gets {A : Type} (f : World -> A) : Py A := fun w => (Ok (f w), w).
Definition modify (f : World -> World) : Py unit := fun w => (Ok tt, f w).

Definition set_session_state (s : SessionState) (w : World) : World :=
  {| session_state := s; files := files w;
     chat_log := chat_log w; screen := screen w |}.

Definition set_files (f : gmap string (list Byte.byte)) (w : World) : World :=
  {| session_state := session_state w; files := f;
     chat_log := chat_log w; screen := screen w |}.

Definition set_chat_log (l : list ChatEvent) (w : World) : World :=
  {| session_state := session_state w; files := files w;
     chat_log := l; screen := screen w |}.

Definition set_screen (s : list UiEvent) (w : World) : World :=
  {| session_state := session_state w; files := files w;
     chat_log := chat_log w; screen := s |}.

Definition show (e : UiEvent) : Py unit :=
  modify (fun w => set_screen (screen w ++ [e]) w).

(** ** Session state *)

(** [st.session_state['refined_html']] *)
Definition get_refined_html : Py string := fun w =>
  match refined_html (session_state w) with
  | Some h => (Ok h, w)
  | None => (Raise "'refined_html'", w)
  end.

(** [st.session_state['chat_history']] *)
Definition get_chat_history : Py (list (string * string)) := fun w =>
  match chat_history (session_state w) with
  | Some l => (Ok l, w)
  | None => (Raise "'chat_history'", w)
  end.

(** [st.session_state['refined_html'] = h] *)
Definition set_refined_html (h : string) : Py unit :=
  modify (fun w =>
    set_session_state
      {| refined_html := Some h;
         chat_history := chat_history (session_state w) |} w).

(** [st.session_state['chat_history'] = l] *)
Definition set_chat_history (l : list (string * string)) : Py unit :=
  modify (fun w =>
    set_session_state
      {| refined_html := refined_html (session_state w);
         chat_history := Some l |} w).

(** [st.session_state['chat_history'].append(entry)] *)
Definition append_chat_history (entry : string * string) : Py unit :=
  l ← get_chat_history;
  set_chat_history (l ++ [entry]).

(** [key in st.session_state] *)
Definition has_key {A : Type} (o : option A) : bool :=
  match o with
  | Some _ => true
  | None => false
  end.

(** Lines 81-84. *)
Definition init_session_state : Py unit :=
  has_html ← gets (fun w => has_key (refined_html (session_state w)));
  (if has_html : bool then mret tt else set_refined_html "");;
  has_history ← gets (fun w => has_key (chat_history (session_state w)));
  (if has_history : bool then mret tt else set_chat_history []).

(** What the specification calls [currentHTML] and [turnHistory]: the two
    keys, read as empty while they are not yet assigned. *)
Definition currentHTML (w : World) : string :=
  default "" (refined_html (session_state w)).

Definition turnHistory (w : World) : list (string * string) :=
  default [] (chat_history (session_state w)).

(** ** Prompts *)

Definition nl : string := String (ascii_of_nat 10) EmptyString.
Definition dq : string := String (ascii_of_nat 34) EmptyString.

(** Line 35. *)
Definition framework : string := "Regular CSS".

(** Line 89. *)
Definition prompt : string :=
  "Describe this UI in accurate details. When you reference a UI element put its name and bounding box in the format: [object name (y_min, x_min, y_max, x_max)]. Also Describe the color of the elements.".

(** Line 94. *)
Definition refine_prompt (description : string) : string :=
  "Compare the described UI elements with the provided image and identify any missing elements or inaccuracies. Also Describe the color of the elements. Provide a refined and accurate description of the UI elements based on this comparison. Here is the initial description: "
  +:+ description.

(** Line 99. *)
Definition html_prompt (refined_description : string) : string :=
  "Create an HTML file based on the following UI description, using the UI elements described in the previous response. Include "
  +:+ framework +:+
  " CSS within the HTML file to style the elements. Make sure the colors used are the same as the original UI. The UI needs to be responsive and mobile-first, matching the original UI as closely as possible. Do not include any explanations or comments. Avoid using ```html. and ``` at the end. ONLY return the HTML code with inline CSS. Here is the refined description: "
  +:+ refined_description.

(** Line 103. *)
Definition refine_html_prompt (initial_html : string) : string :=
  "Validate the following HTML code based on the UI description and image and provide a refined version of the HTML code with "
  +:+ framework +:+
  " CSS that improves accuracy, responsiveness, and adherence to the original design. ONLY return the refined HTML code with inline CSS. Avoid using ```html. and ``` at the end. Here is the initial HTML: "
  +:+ initial_html.

(** Line 121: the prompt of a chat turn. *)
Definition chat_refine_html_prompt (html user_input : string) : string :=
  "Here is the current HTML code:" +:+ nl +:+ "```html" +:+ nl
  +:+ html +:+ nl +:+ "```" +:+ nl +:+ nl +:+ "User request: "
  +:+ user_input +:+ nl +:+ nl +:+
  "Based on this request, generate the updated HTML code. Remember to ONLY return the refined HTML code with inline "
  +:+ framework +:+ " CSS. Avoid using ```html. and ``` at the end.".

(** Lines 133-145. *)
Definition html_with_js (html : string) : string :=
  let sp16 := "                " in
  let sp20 := sp16 +:+ "    " in
  let sp24 := sp20 +:+ "    " in
  let sp28 := sp24 +:+ "    " in
  nl +:+ sp20 +:+ "<div id=" +:+ dq +:+ "preview-container" +:+ dq +:+ ">" +:+ nl
  +:+ sp24 +:+ html +:+ nl
  +:+ sp20 +:+ "</div>" +:+ nl
  +:+ sp20 +:+ "<script>" +:+ nl
  +:+ sp24 +:+ "const container = document.getElementById('preview-container');" +:+ nl
  +:+ sp24 +:+ "function resizeIframe() {" +:+ nl
  +:+ sp28 +:+ "container.style.width = window.innerWidth + 'px';" +:+ nl
  +:+ sp24 +:+ "}" +:+ nl
  +:+ sp24 +:+ "resizeIframe();" +:+ nl
  +:+ sp24 +:+ "window.addEventListener('resize', resizeIframe);" +:+ nl
  +:+ sp20 +:+ "</script>" +:+ nl
  +:+ sp16.

(** [s] occurs in [t]. *)
Definition substring_of (s t : string) : Prop :=
  exists before after, t = before +:+ s +:+ after.

(** ** The script *)

Section Script.

(** The generative model behind [chat_session.send_message(...).text]:
    from everything that happened on the model side so far and the
    content sent now, the text of the response or the exception. *)
Variable respond : list ChatEvent -> Content -> result string.

(** Line 45. *)
Definition start_chat : Py unit :=
  modify (fun w => set_chat_log (chat_log w ++ [StartChat]) w).

(** [chat_session.send_message(c).text] *)
Definition chat_session_send_message (c : Content) : Py string := fun w =>
  let r := respond (chat_log w) c in
  (r, set_chat_log (chat_log w ++ [Sent c r]) w).

(** [pathlib.Path(path).read_bytes()] *)
Definition read_bytes (path : string) : Py (list Byte.byte) := fun w =>
  match files w !! path with
  | Some b => (Ok b, w)
  | None => (Raise ("[Errno 2] No such file or directory: '" +:+ path +:+ "'"), w)
  end.

(** Lines 48-57. *)
Definition send_message_to_model (message : string) (image_path : option string)
  : Py string :=
  match image_path with
  | Some path =>
      if truthy path then
        bytes ← read_bytes path;
        chat_session_send_message
          (TextWithImage message {| mime_type := "image/jpeg"; data := bytes |})
      else chat_session_send_message (Text message)
  | None => chat_session_send_message (Text message)
  end.

(** Lines 76-78, for a picture that PIL has saved. *)
Definition save_temp_image (image : list Byte.byte) (name : string) : Py string :=
  modify (fun w => set_files (<[name := image]> (files w)) w);;
  mret name.

(** Lines 87-105: the body of [if st.button("Code UI")]. *)
Definition code_ui (temp_image_path : string) : Py unit :=
  description ← send_message_to_model prompt (Some temp_image_path);
  show (st_write description);;
  refined_description ←
    send_message_to_model (refine_prompt description) (Some temp_image_path);
  show (st_write refined_description);;
  initial_html ←
    send_message_to_model (html_prompt refined_description) (Some temp_image_path);
  refined ←
    send_message_to_model (refine_html_prompt initial_html) (Some temp_image_path);
  set_refined_html refined;;
  html ← get_refined_html;
  append_chat_history ("Initial HTML Code", html).

(** Lines 108-110. *)
Definition display_chat_history : Py unit :=
  l ← get_chat_history;
  modify (fun w =>
    set_screen (screen w ++ map (fun e => st_chat_message (fst e) (snd e)) l) w).

(** Lines 115-126: the body of [if user_input]. *)
Definition chat_turn (user_input : string) : Py unit :=
  append_chat_history ("user", user_input);;
  show (st_chat_message "user" user_input);;
  html ← get_refined_html;
  updated_html ←
    send_message_to_model (chat_refine_html_prompt html user_input) None;
  set_refined_html updated_html;;
  append_chat_history ("assistant", updated_html);;
  show (st_chat_message "assistant" updated_html).

(** Lines 129-151. *)
Definition display_refined_html : Py unit :=
  html ← get_refined_html;
  if truthy html then
    show (st_code html "html");;
    html' ← get_refined_html;
    show (st_write "Preview:");;
    show (st_components_html (html_with_js html'));;
    data ← get_refined_html;
    show (st_download_button "Download HTML" data "index.html" "text/html")
  else mret tt.

(** Lines 66-151: the body of [try], for a picture that lines 68-78
    have opened and saved. *)
Definition main_body (image : list Byte.byte) (inp : Input) : Py unit :=
  show (st_image image "Uploaded Image.");;
  temp_image_path ← save_temp_image image (tempfile_name inp);
  init_session_state;;
  (if button_code_ui inp then code_ui temp_image_path else mret tt);;
  display_chat_history;;
  match chat_input inp with
  | Some user_input =>
      if truthy user_input then chat_turn user_input else mret tt
  | None => mret tt
  end;;
  display_refined_html.

(** Lines 60-154. *)
Definition main (inp : Input) : Py unit :=
  show (st_title "UI to HTML with Gemini");;
  match uploaded_file inp with
  | Some image =>
      try_except (main_body image inp)
        (fun e => show (st_error ("An error occurred: " +:+ e)))
  | None => mret tt
  end.

(** One execution of the script, as Streamlit does for every user
    action: the module level (a new chat session, line 45), then
    [main] (line 157). *)
Definition script (inp : Input) : Py unit :=
  start_chat;;
  main inp.

(** The world after one execution, and after a sequence of them. *)
Definition run (inp : Input) (w : World) : World := snd (script inp w).

Definition run_session (inps : list Input) (w : World) : World :=
  fold_left (fun w inp => run inp w) inps w.

End Script.

(** The world when the session begins. *)
Definition new_session : World :=
  {| session_state := {| refined_html := None; chat_history := None |};
     files := ∅; chat_log := []; screen := [] |}.

(** ** Vocabulary of the statements *)

(** The content of a stage call: the message with the uploaded picture. *)
Definition with_image (image : list Byte.byte) (message : string) : Content :=
  TextWithImage message {| mime_type := "image/jpeg"; data := image |}.

(** The four calls of a pipeline run whose stages return [d], [rd], [h]
    and [r]. *)
Definition stage_events (image : list Byte.byte) (d rd h r : string)
  : list ChatEvent :=
  [ Sent (with_image image prompt) (Ok d);
    Sent (with_image image (refine_prompt d)) (Ok rd);
    Sent (with_image image (html_prompt rd)) (Ok h);
    Sent (with_image image (refine_html_prompt h)) (Ok r) ].

(** The model, asked the four stage calls one after the other from the
    log [L], returns [d], [rd], [h] and [r]. *)
Definition stages_return (respond : list ChatEvent -> Content -> result string)
    (L : list ChatEvent) (image : list Byte.byte) (d rd h r : string) : Prop :=
  respond L (with_image image prompt) = Ok d /\
  respond (L ++ take 1 (stage_events image d rd h r))
    (with_image image (refine_prompt d)) = Ok rd /\
  respond (L ++ take 2 (stage_events image d rd h r))
    (with_image image (html_prompt rd)) = Ok h /\
  respond (L ++ take 3 (stage_events image d rd h r))
    (with_image image (refine_html_prompt h)) = Ok r.

(** The call returned. *)
Definition returned (ev : ChatEvent) : Prop :=
  match ev with
  | Sent _ (Ok _) => True
  | _ => False
  end.

(** The run has a chat turn: the chat input holds a non-empty text
    (line 114). *)
Definition submits_text (inp : Input) : bool :=
  match chat_input inp with
  | Some user_input => truthy user_input
  | None => false
  end.

(** The model is a function of the content it is sent, whatever was
    exchanged before. *)
Definition deterministic (respond : list ChatEvent -> Content -> result string)
  : Prop :=
  forall L L' c, respond L c = respond L' c.






Definition keys_assigned (w : World) : Prop :=
  is_Some (refined_html (session_state w)) /\
  is_Some (chat_history (session_state w)).

(** [Q] holds of the world in which [m] ends, by returning or by raising,
    when it starts in a world where [P] holds. *)
Definition hoare {A : Type} (P : World -> Prop) (m : Py A) (Q : World -> Prop)
  : Prop :=
  forall w, P w -> Q (snd (m w)).

Definition preserves {A : Type} (I : World -> Prop) (m : Py A) : Prop :=
  hoare I m I.

(** A property of the turn history alone, as a property of worlds. *)
Definition on_history (H : list (string * string) -> Prop) (w : World) : Prop :=
  H (turnHistory w).

(** The computation leaves the session state alone and only adds to the
    log. *)
Definition frame {A : Type} (m : Py A) : Prop :=
  forall w, session_state (snd (m w)) = session_state w /\
            chat_log w `prefix_of` chat_log (snd (m w)).

(** ** Scenarios *)

(** A stub model that gives its answers in order, one per call, and
    raises when it has none left. *)
Fixpoint count_sent (l : list ChatEvent) : nat :=
  match l with
  | [] => 0
  | StartChat :: l' => count_sent l'
  | Sent _ _ :: l' => S (count_sent l')
  end.

Definition scripted (answers : list (result string))
  : list ChatEvent -> Content -> result string :=
  fun L _ => default (Raise "no answer left") (answers !! count_sent L).

(** A stub model that returns the message it is sent. *)
Definition echo : list ChatEvent -> Content -> result string :=
  fun _ c =>
    match c with
    | Text message => Ok message
    | TextWithImage message _ => Ok message
    end.

(** A stub model that returns one page for a stage call and another for
    a chat turn. *)
Definition two_pages : list ChatEvent -> Content -> result string :=
  fun _ c =>
    match c with
    | Text _ => Ok "<html>F</html>"
    | TextWithImage _ _ => Ok "<html>P</html>"
    end.

Definition scenario_answers : list (result string) :=
  [Ok "D"; Ok "RD"; Ok "<html>A</html>"; Ok "<html>B</html>";
   Ok "<html>B-red</html>"].

Definition stage3_raises : list (result string) :=
  [Ok "D"; Ok "RD"; Raise "quota exceeded"].

Definition empty_description : list (result string) :=
  [Ok ""; Ok "RD"; Ok "<html>A</html>"; Ok "<html>B</html>"].

Definition picture : list Byte.byte := [Byte.xff; Byte.xd8; Byte.xff; Byte.xd9].

Definition press_code_ui : Input :=
  {| uploaded_file := Some picture; tempfile_name := "/tmp/tmpk3x9.jpg";
     button_code_ui := true; chat_input := None |}.

Definition submit (text : string) : Input :=
  {| uploaded_file := Some picture; tempfile_name := "/tmp/tmpq7w2.jpg";
     button_code_ui := false; chat_input := Some text |}.

(** The same actions in a later run: the temporary file gets a new
    name. *)
Definition press_code_ui_again : Input :=
  {| uploaded_file := Some picture; tempfile_name := "/tmp/tmpz4m1.jpg";
     button_code_ui := true; chat_input := None |}.

Definition submit_again (text : string) : Input :=
  {| uploaded_file := Some picture; tempfile_name := "/tmp/tmpc8d5.jpg";
     button_code_ui := false; chat_input := Some text |}.

(** ** Vocabulary of the further statements *)

(** The computation leaves the component [f] of the world as it is. *)
Definition keeps {A B : Type} (f : World -> B) (m : Py A) : Prop :=
  forall w, f (snd (m w)) = f w.

(** The computation adds at most [n] events to the log and takes none
    away. *)
Definition adds_at_most {A : Type} (n : nat) (m : Py A) : Prop :=
  forall w, exists evs,
    chat_log (snd (m w)) = chat_log w ++ evs /\ length evs <= n.

(** What lines 108-110 put on the page for a history, and lines 129-151
    for a page of HTML. *)
Definition shown_history (l : list (string * string)) : list UiEvent :=
  map (fun e => st_chat_message (fst e) (snd e)) l.

Definition shown_html (html : string) : list UiEvent :=
  if truthy html then
    [ st_code html "html";
      st_write "Preview:";
      st_components_html (html_with_js html);
      st_download_button "Download HTML" html "index.html" "text/html" ]
  else [].

(** The model calls that the widgets of a run allow: four for the
    button, one for a submitted text, none without an uploaded file. *)
Definition calls_allowed (inp : Input) : nat :=
  match uploaded_file inp with
  | Some _ =>
      (if button_code_ui inp then 4 else 0)
      + (if submits_text inp then 1 else 0)
  | None => 0
  end.

(** A run without an uploaded file, the button pressed and a text
    submitted all the same; and a run with the file in which nothing is
    pressed or submitted. *)
Definition no_upload : Input :=
  {| uploaded_file := None; tempfile_name := "";
     button_code_ui := true; chat_input := Some "make the button red" |}.

Definition idle : Input :=
  {| uploaded_file := Some picture; tempfile_name := "/tmp/tmph2n6.jpg";
     button_code_ui := false; chat_input := None |}.

(** ** Running the script symbolically *)

#[global] Arguments refine_prompt : simpl never.
#[global] Arguments html_prompt : simpl never.
#[global] Arguments refine_html_prompt : simpl never.
#[global] Arguments chat_refine_html_prompt : simpl never.
#[global] Arguments html_with_js : simpl never.

Ltac py_unfold :=
  cbv beta iota zeta delta
    [main main_body try_except code_ui chat_turn display_chat_history
     display_refined_html init_session_state save_temp_image
     send_message_to_model read_bytes chat_session_send_message start_chat
     append_chat_history set_chat_history set_refined_html get_chat_history
     get_refined_html show modify gets raise mbind mret py_bind py_ret
     set_screen set_session_state set_files set_chat_log has_key
     submits_text currentHTML turnHistory script run];
  cbn -[lookup insert]; rewrite <- ?app_assoc; cbn -[lookup insert].

Ltac py_branch :=
  match goal with
  | |- context [<[?k := ?v]> ?m !! ?k] => rewrite (lookup_insert_eq m k v)
  | H : ?x = _ |- context [match ?x with _ => _ end] => rewrite H
  | H : ?x = _ |- context [if ?x then _ else _] => rewrite H
  | |- context [match ?x with Some _ => _ | None => _ end] => is_var x; destruct x
  | |- context [if ?b then _ else _] => is_var b; destruct b
  | |- context [if truthy ?s then _ else _] => destruct (truthy s) eqn:?
  end.

Tactic Notation "py_unfold" "in" hyp(H) :=
  cbv beta iota zeta delta [submits_text currentHTML turnHistory] in H; cbn in H.

Ltac py_run := py_unfold; repeat (py_branch; py_unfold).

(** Case analysis on what the model [f] answers, where the run depends
    on it. *)
Ltac py_cases f :=
  py_unfold;
  repeat (first
    [ py_branch
    | match goal with
      | |- context [match ?m !! ?k with _ => _ end] => destruct (m !! k) eqn:?
      | H : f ?l ?c = _ |- context [f ?l ?c] => rewrite H
      | |- context [f ?l ?c] => destruct (f l c) eqn:?
      end ];
    py_unfold).

(** Unfolding the script down to its blocks, which stay folded. *)
Ltac py_glue :=
  cbv beta iota zeta delta
    [main main_body try_except init_session_state save_temp_image
     set_chat_history set_refined_html show modify gets mbind mret py_bind
     py_ret set_screen set_session_state set_files set_chat_log has_key
     submits_text currentHTML turnHistory script run start_chat];
  cbn -[lookup insert code_ui chat_turn display_chat_history
        display_refined_html].

(** ** Strings and lists *)

Lemma string_app_nil_r (s : string) : s +:+ "" = s.
Proof.
  induction s as [|a s IH]; [done|].
  change (String a (s +:+ "") = String a s). by rewrite IH.
Qed.

Lemma string_app_assoc (a b c : string) : (a +:+ b) +:+ c = a +:+ (b +:+ c).
Proof.
  induction a as [|x a IH]; [done|].
  change (String x ((a +:+ b) +:+ c) = String x (a +:+ (b +:+ c))).
  by rewrite IH.
Qed.

Lemma substring_of_suffix (p s : string) : substring_of s (p +:+ s).
Proof. exists p, "". by rewrite string_app_nil_r. Qed.


(** ** Computations that only add to the log *)




Ltac py_one_run :=
  match goal with
  | |- context [snd ?m] =>
      let w' := fresh "w'" in
      let Hw' := fresh "Hw'" in
      remember (snd m) as w' eqn:Hw'; revert Hw'
  end.


(** ** Rules for the monad *)

Section Rules.

Context {A B : Type}.
Implicit Types (P Q R I : World -> Prop).

Lemma hoare_ret P (a : A) : hoare P (mret a) P.
Proof. by intros w HP. Qed.

Lemma hoare_bind P Q (m : Py A) (k : A -> Py B) :
  hoare P m Q -> (forall a, hoare Q (k a) Q) -> hoare P (m ≫= k) Q.
Proof.
  intros Hm Hk w HP. specialize (Hm w HP).
  unfold mbind, py_bind. destruct (m w) as [[a|e] w1]; cbn in *; [|done].
  by apply Hk.
Qed.


End Rules.

Lemma hoare_try_except P Q (body : Py unit) (handler : string -> Py unit) :
  hoare P body Q -> (forall e, hoare Q (handler e) Q) ->
  hoare P (try_except body handler) Q.
Proof.
  intros Hb Hh w HP. specialize (Hb w HP). unfold try_except.
  destruct (body w) as [[[]|e] w1]; cbn in *; [done|]. by apply Hh.
Qed.

(** ** Properties of the history that every run keeps *)

Lemma preserves_same_history {A : Type} H (m : Py A) :
  (forall w, turnHistory (snd (m w)) = turnHistory w) ->
  preserves (on_history H) m.
Proof. intros Hm w HP. unfold on_history. by rewrite Hm. Qed.

Section HistoryInvariants.

Variable respond : list ChatEvent -> Content -> result string.
Variable H : list (string * string) -> Prop.

Lemma show_on_history e : preserves (on_history H) (show e).
Proof. by apply preserves_same_history. Qed.

Lemma start_chat_on_history : preserves (on_history H) start_chat.
Proof. by apply preserves_same_history. Qed.

Lemma save_temp_image_on_history image name :
  preserves (on_history H) (save_temp_image image name).
Proof. by apply preserves_same_history. Qed.

Lemma get_refined_html_on_history : preserves (on_history H) get_refined_html.
Proof.
  apply preserves_same_history. intros w. unfold get_refined_html.
  by destruct (refined_html (session_state w)).
Qed.

Lemma set_refined_html_on_history h :
  preserves (on_history H) (set_refined_html h).
Proof. by apply preserves_same_history. Qed.

Lemma init_session_state_on_history :
  preserves (on_history H) init_session_state.
Proof.
  apply preserves_same_history. intros [[[h|] [l|]] fs lg sc]; reflexivity.
Qed.

Lemma send_message_to_model_on_history message image_path :
  preserves (on_history H) (send_message_to_model respond message image_path).
Proof.
  apply preserves_same_history. intros w. unfold send_message_to_model.
  destruct image_path as [path|]; [|done].
  destruct (truthy path); [|done].
  unfold read_bytes, mbind, py_bind. by destruct (files w !! path).
Qed.

Lemma display_chat_history_on_history :
  preserves (on_history H) display_chat_history.
Proof.
  apply preserves_same_history. intros w.
  unfold display_chat_history, get_chat_history, mbind, py_bind.
  by destruct (chat_history (session_state w)).
Qed.

Lemma display_refined_html_on_history :
  preserves (on_history H) display_refined_html.
Proof.
  apply preserves_same_history. intros [[[h|] l] fs lg sc]; [|done].
  py_unfold. by destruct (truthy h).
Qed.

Lemma append_chat_history_on_history entry :
  (forall l, H l -> H (l ++ [entry])) ->
  preserves (on_history H) (append_chat_history entry).
Proof.
  intros Hentry [[h [l|]] fs lg sc] HP; [|done]. by apply Hentry.
Qed.

(** The pipeline keeps a property of the history that survives the
    appending of an entry labelled as on line 105. *)
Lemma code_ui_on_history temp_image_path :
  (forall l text, H l -> H (l ++ [("Initial HTML Code", text)])) ->
  preserves (on_history H) (code_ui respond temp_image_path).
Proof.
  intros Hentry. unfold code_ui.
  repeat first
    [ apply send_message_to_model_on_history
    | apply show_on_history
    | apply set_refined_html_on_history
    | apply get_refined_html_on_history
    | apply append_chat_history_on_history; intros l; apply Hentry
    | apply hoare_bind; [|intros ?] ].
Qed.

(** The chat turn keeps one that survives the appending of entries
    labelled as on lines 115 and 124. *)
Lemma chat_turn_on_history user_input :
  (forall l text, H l -> H (l ++ [("user", text)])) ->
  (forall l text, H l -> H (l ++ [("assistant", text)])) ->
  preserves (on_history H) (chat_turn respond user_input).
Proof.
  intros Huser Hassistant. unfold chat_turn.
  repeat first
    [ apply send_message_to_model_on_history
    | apply show_on_history
    | apply set_refined_html_on_history
    | apply get_refined_html_on_history
    | apply append_chat_history_on_history; intros l;
      first [apply Huser | apply Hassistant]
    | apply hoare_bind; [|intros ?] ].
Qed.

Lemma main_on_history inp :
  (forall l text, H l -> H (l ++ [("Initial HTML Code", text)])) ->
  (submits_text inp = true ->
   forall l role text, role = "user" \/ role = "assistant" ->
     H l -> H (l ++ [(role, text)])) ->
  preserves (on_history H) (main respond inp).
Proof.
  intros Hcode Hchat. unfold main.
  apply hoare_bind; [apply show_on_history | intros _].
  destruct (uploaded_file inp) as [image|]; [|apply hoare_ret].
  apply hoare_try_except; [|intros e; apply show_on_history].
  unfold main_body.
  apply hoare_bind; [apply show_on_history | intros _].
  apply hoare_bind; [apply save_temp_image_on_history | intros path].
  apply hoare_bind; [apply init_session_state_on_history | intros _].
  apply hoare_bind; [|intros _].
  { destruct (button_code_ui inp); [by apply code_ui_on_history | apply hoare_ret]. }
  apply hoare_bind; [apply display_chat_history_on_history | intros _].
  apply hoare_bind; [|intros _; apply display_refined_html_on_history].
  unfold submits_text in Hchat.
  destruct (chat_input inp) as [t|]; [|apply hoare_ret].
  destruct (truthy t); [|apply hoare_ret].
  apply chat_turn_on_history; intros l text; apply Hchat; auto.
Qed.

Lemma script_on_history inp :
  (forall l text, H l -> H (l ++ [("Initial HTML Code", text)])) ->
  (submits_text inp = true ->
   forall l role text, role = "user" \/ role = "assistant" ->
     H l -> H (l ++ [(role, text)])) ->
  preserves (on_history H) (script respond inp).
Proof.
  intros Hcode Hchat. unfold script.
  apply hoare_bind; [apply start_chat_on_history | intros _].
  by apply main_on_history.
Qed.

End HistoryInvariants.

(** An invariant of every execution of the script is one of the session. *)
Lemma run_session_invariant respond (I : World -> Prop) (ok : Input -> Prop) :
  (forall inp, ok inp -> preserves I (script respond inp)) ->
  forall inps w, Forall ok inps -> I w -> I (run_session respond inps w).
Proof.
  intros Hstep inps. induction inps as [|inp inps IH]; intros w Hok HI; [done|].
  inversion Hok as [|? ? Hinp Hrest]; subst. cbn.
  apply IH; [done|]. by apply Hstep.
Qed.

(** ** What a run does *)

Section Runs.

Variable respond : list ChatEvent -> Content -> result string.

(** A run in which the button is pressed, no text is submitted and the
    four stage calls return: what is stored and what was sent. *)
Lemma main_pipeline_returns inp w image d rd h r :
  uploaded_file inp = Some image ->
  truthy (tempfile_name inp) = true ->
  button_code_ui inp = true ->
  submits_text inp = false ->
  stages_return respond (chat_log w) image d rd h r ->
  currentHTML (snd (main respond inp w)) = r /\
  turnHistory (snd (main respond inp w))
    = turnHistory w ++ [("Initial HTML Code", r)] /\
  chat_log (snd (main respond inp w))
    = chat_log w ++ stage_events image d rd h r.
Proof.
  destruct inp as [up name btn ci], w as [[rh ch] fs lg sc].
  unfold stages_return, stage_events, with_image.
  cbn [take uploaded_file tempfile_name button_code_ui chat_log].
  intros -> Hname -> Hci (H1 & H2 & H3 & H4).
  py_unfold in Hci. py_one_run. py_run. all: by intros ->.
Qed.

(** A run in which only a text is submitted: what is sent, and what is
    stored when the call returns and when it raises. *)
Lemma main_chat_turn inp w image t :
  uploaded_file inp = Some image ->
  button_code_ui inp = false ->
  chat_input inp = Some t ->
  truthy t = true ->
  chat_log (snd (main respond inp w))
    = chat_log w ++
      [Sent (Text (chat_refine_html_prompt (currentHTML w) t))
         (respond (chat_log w)
            (Text (chat_refine_html_prompt (currentHTML w) t)))] /\
  match respond (chat_log w)
          (Text (chat_refine_html_prompt (currentHTML w) t)) with
  | Ok u =>
      currentHTML (snd (main respond inp w)) = u /\
      turnHistory (snd (main respond inp w))
        = turnHistory w ++ [("user", t); ("assistant", u)]
  | Raise e =>
      currentHTML (snd (main respond inp w)) = currentHTML w /\
      turnHistory (snd (main respond inp w)) = turnHistory w ++ [("user", t)]
  end.
Proof.
  destruct inp as [up name btn ci], w as [[rh ch] fs lg sc].
  cbn [uploaded_file tempfile_name button_code_ui chat_input].
  intros -> -> -> Ht.
  py_one_run.
  destruct rh as [h0|], ch as [l0|]; py_run;
    match goal with
    | |- context [respond ?l ?c] => destruct (respond l c) as [u|e] eqn:Hu
    end; py_run; by intros ->.
Qed.

(** The same for the block of lines 115-126 alone, wherever in a run
    it is evaluated. *)
Lemma chat_turn_runs t w h0 l0 :
  refined_html (session_state w) = Some h0 ->
  chat_history (session_state w) = Some l0 ->
  match respond (chat_log w) (Text (chat_refine_html_prompt h0 t)) with
  | Ok u =>
      fst (chat_turn respond t w) = Ok tt /\
      currentHTML (snd (chat_turn respond t w)) = u /\
      turnHistory (snd (chat_turn respond t w))
        = l0 ++ [("user", t); ("assistant", u)]
  | Raise e =>
      fst (chat_turn respond t w) = Raise e /\
      currentHTML (snd (chat_turn respond t w)) = h0 /\
      turnHistory (snd (chat_turn respond t w)) = l0 ++ [("user", t)]
  end.
Proof.
  destruct w as [[rh ch] fs lg sc]. cbn [session_state refined_html chat_history].
  intros -> ->.
  match goal with
  | |- context [chat_turn ?f ?t ?w] =>
      remember (chat_turn f t w) as res eqn:Hres; revert Hres
  end.
  py_run.
  destruct (respond lg (Text (chat_refine_html_prompt h0 t))); py_run;
    by intros ->.
Qed.

Lemma code_ui_outcome p image w h0 l0 :
files w !! p = Some image ->
refined_html (session_state w) = Some h0 ->
chat_history (session_state w) = Some l0 ->
match code_ui respond p w with
| (Ok _, w2) => exists r c evs,
    chat_log w2 = chat_log w ++ evs ++ [Sent c (Ok r)] /\ length evs = 3 /\
    Forall returned evs /\
    session_state w2
      = {| refined_html := Some r;
           chat_history := Some (l0 ++ [("Initial HTML Code", r)]) |}
| (Raise e, w2) => exists evs c,
    chat_log w2 = chat_log w ++ evs ++ [Sent c (Raise e)] /\ length evs < 4 /\
    Forall returned evs /\
    session_state w2 = session_state w
end.
Proof.
destruct w as [[rh ch] fs lg sc]. cbn [files session_state refined_html chat_history].
intros Hf -> ->.
py_cases respond.
all: solve
  [ (eexists _, _, [_; _; _] + eexists [_; _; _], _ + eexists [_; _], _
     + eexists [_], _ + eexists [], _);
    (split; [reflexivity|]); (split; [cbn; lia|]);
    (split; [repeat constructor | reflexivity]) ].
Qed.

Lemma chat_turn_outcome t w h0 l0 :
refined_html (session_state w) = Some h0 ->
chat_history (session_state w) = Some l0 ->
match chat_turn respond t w with
| (Ok _, w2) => exists u c,
    chat_log w2 = chat_log w ++ [Sent c (Ok u)] /\
    session_state w2
      = {| refined_html := Some u;
           chat_history := Some (l0 ++ [("user", t); ("assistant", u)]) |}
| (Raise e, w2) => exists c,
    chat_log w2 = chat_log w ++ [Sent c (Raise e)] /\
    session_state w2
      = {| refined_html := Some h0;
           chat_history := Some (l0 ++ [("user", t)]) |}
end.
Proof.
destruct w as [[rh ch] fs lg sc]. cbn [files session_state refined_html chat_history].
intros -> ->.
py_cases respond; eauto.
Qed.

Lemma display_chat_history_frame w l :
  chat_history (session_state w) = Some l ->
  exists w', display_chat_history w = (Ok tt, w') /\
    session_state w' = session_state w /\ chat_log w' = chat_log w.
Proof.
  intros Hl. unfold display_chat_history, get_chat_history, mbind, py_bind.
  rewrite Hl. by eexists.
Qed.

Lemma display_refined_html_frame w :
  session_state (snd (display_refined_html w)) = session_state w /\
  chat_log (snd (display_refined_html w)) = chat_log w.
Proof.
  destruct w as [[[h|] ch] fs lg sc]; [|done].
  py_unfold. by destruct (truthy h).
Qed.


Lemma main_button_outcome inp w image :
  uploaded_file inp = Some image ->
  button_code_ui inp = true ->
  exists evs,
    chat_log (snd (main respond inp w)) = chat_log w ++ evs /\
    ((exists pre c e,
        evs = pre ++ [Sent c (Raise e)] /\ length pre < 4 /\
        Forall returned pre /\
        currentHTML (snd (main respond inp w)) = currentHTML w /\
        turnHistory (snd (main respond inp w)) = turnHistory w /\
        last (screen (snd (main respond inp w)))
          = Some (st_error ("An error occurred: " +:+ e)))
     \/ (exists stages rest,
           evs = stages ++ rest /\ length stages = 4 /\
           Forall returned stages)).
Proof.
  destruct inp as [up name btn ci], w as [[rh ch] fs lg sc].
  cbn [uploaded_file tempfile_name button_code_ui chat_input].
  intros -> ->.
  match goal with
  | |- context [snd ?m] => remember (snd m) as w' eqn:Hw'; revert Hw'
  end.
  destruct rh as [h0|], ch as [l0|]; py_glue.
  all: match goal with
    | |- context [code_ui ?f ?p ?w] =>
        pose proof (code_ui_outcome p image w _ _
                      (lookup_insert_eq _ _ _) eq_refl eq_refl) as Hcode;
        destruct (code_ui f p w) as [[[]|e] w2]
    end.
  all: cbn -[lookup insert code_ui chat_turn display_chat_history
             display_refined_html] in Hcode |- *.
  (* the pipeline raised: the handler reports it *)
  all: try (destruct Hcode as (pre & c & Hlog & Hlen & Hret & Hsess);
            intros ->; cbn; rewrite Hlog, Hsess, last_snoc; cbn;
            eexists; split; [reflexivity|]; left; by exists pre, c, e).
  (* the pipeline returned: whatever follows, its four calls stay *)
  all: destruct Hcode as (r & c & stages & Hlog & Hlen & Hret & Hsess).
  all: intros Hw';
    assert (exists rest, chat_log w' = chat_log w2 ++ rest) as [rest Hrest];
    [subst w' | exists ((stages ++ [Sent c (Ok r)]) ++ rest); split;
       [ by rewrite Hrest, Hlog, <- !app_assoc
       | right; exists (stages ++ [Sent c (Ok r)]), rest; split; [done|];
         split; [rewrite length_app; cbn; lia|];
         apply Forall_app; split; [done | by repeat constructor] ] ].
  all: destruct (display_chat_history_frame w2 _
                   (eq_trans (f_equal chat_history Hsess) eq_refl))
         as (w3 & -> & Hs3 & Hl3).
  all: destruct ci as [t|]; [destruct (truthy t)|].
  all: try (pose proof (display_refined_html_frame w3) as [_ Hl5];
            destruct (display_refined_html w3) as [[[]|e5] w5];
            cbn in *; exists []; by rewrite app_nil_r, <- Hl3, <- Hl5).
  all: pose proof (chat_turn_outcome t w3 _ _
                  (eq_trans (f_equal refined_html Hs3) (f_equal refined_html Hsess))
                  (eq_trans (f_equal chat_history Hs3) (f_equal chat_history Hsess)))
         as Hchat;
       destruct (chat_turn respond t w3) as [[[]|e4] w4].
  all: try (destruct Hchat as (c4 & Hl4 & _); cbn in *;
            exists [Sent c4 (Raise e4)]; by rewrite Hl4, Hl3).
  all: destruct Hchat as (u & c4 & Hl4 & _);
       pose proof (display_refined_html_frame w4) as [_ Hl5];
       destruct (display_refined_html w4) as [[[]|e5] w5];
       cbn in *; exists [Sent c4 (Ok u)]; by rewrite <- Hl3, <- Hl4, <- Hl5.
Qed.

(** *** The stored page and the history agree *)




Lemma display_chat_history_is_frame : frame display_chat_history.
Proof.
  intros w. unfold display_chat_history, get_chat_history, mbind, py_bind.
  by destruct (chat_history (session_state w)).
Qed.








End Runs.

(** ** The runs of a session *)

(** One execution of the script is [main] in the world where the new
    chat session has been started. *)
Lemma run_as_main respond inp w :
  run respond inp w
    = snd (main respond inp (set_chat_log (chat_log w ++ [StartChat]) w)).
Proof. reflexivity. Qed.

Lemma chat_prompt_embeds html t :
  substring_of html (chat_refine_html_prompt html t) /\
  substring_of t (chat_refine_html_prompt html t).
Proof.
  unfold chat_refine_html_prompt. split.
  - eexists ("Here is the current HTML code:" +:+ nl +:+ "```html" +:+ nl), _.
    by rewrite !string_app_assoc.
  - eexists ("Here is the current HTML code:" +:+ nl +:+ "```html" +:+ nl
             +:+ html +:+ nl +:+ "```" +:+ nl +:+ nl +:+ "User request: "), _.
    by rewrite !string_app_assoc.
Qed.

(** ** The statements of the specification *)

(** C1. After a run of the pipeline in which the four model calls return,
    [currentHTML] is the text returned by the fourth call, as it is, and
    the run has appended exactly one entry to the turn history, whose
    content is that text. *)
Theorem pipeline_commits_stage4 respond inp w image d rd h r :
  uploaded_file inp = Some image ->
  truthy (tempfile_name inp) = true ->
  button_code_ui inp = true ->
  submits_text inp = false ->
  stages_return respond (chat_log w) image d rd h r ->
  currentHTML (snd (main respond inp w)) = r /\
  turnHistory (snd (main respond inp w))
    = turnHistory w ++ [("Initial HTML Code", r)].
Proof.
  intros Hup Hname Hbtn Hci Hret.
  destruct (main_pipeline_returns respond inp w image d rd h r
              Hup Hname Hbtn Hci Hret) as (Hhtml & Hhist & _).
  by split.
Qed.

(** Scenario A of the specification. *)
Lemma pipeline_commits_stage4_witness :
  currentHTML (snd (main (scripted scenario_answers) press_code_ui new_session))
    = "<html>B</html>" /\
  turnHistory (snd (main (scripted scenario_answers) press_code_ui new_session))
    = [("Initial HTML Code", "<html>B</html>")].
Proof.
  apply (pipeline_commits_stage4 (scripted scenario_answers) press_code_ui
           new_session picture "D" "RD" "<html>A</html>" "<html>B</html>");
    try reflexivity.
  repeat split; reflexivity.
Defined.

(** C2, as the script has it.  A chat turn has no precondition on
    [currentHTML]: submitted while [currentHTML] is empty, the text is
    appended under the role "user", the model is called with the prompt
    that embeds the empty page, and when the call returns its text
    becomes [currentHTML] and is appended under the role "assistant".
    No "assistant" entry is appended only when the call raises. *)
Theorem chat_turn_on_empty_html respond inp w image t :
  uploaded_file inp = Some image ->
  button_code_ui inp = false ->
  chat_input inp = Some t ->
  truthy t = true ->
  currentHTML w = "" ->
  chat_log (snd (main respond inp w))
    = chat_log w ++
      [Sent (Text (chat_refine_html_prompt "" t))
         (respond (chat_log w) (Text (chat_refine_html_prompt "" t)))] /\
  match respond (chat_log w) (Text (chat_refine_html_prompt "" t)) with
  | Ok u =>
      currentHTML (snd (main respond inp w)) = u /\
      turnHistory (snd (main respond inp w))
        = turnHistory w ++ [("user", t); ("assistant", u)]
  | Raise e =>
      currentHTML (snd (main respond inp w)) = "" /\
      turnHistory (snd (main respond inp w)) = turnHistory w ++ [("user", t)]
  end.
Proof.
  intros Hup Hbtn Hci Ht Hempty.
  pose proof (main_chat_turn respond inp w image t Hup Hbtn Hci Ht) as Hturn.
  by rewrite Hempty in Hturn.
Qed.

Lemma chat_turn_on_empty_html_witness :
  chat_log (snd (main (scripted [Ok "<html>X</html>"])
                   (submit "make the button red") new_session))
    = [Sent (Text (chat_refine_html_prompt "" "make the button red"))
         (Ok "<html>X</html>")] /\
  currentHTML (snd (main (scripted [Ok "<html>X</html>"])
                      (submit "make the button red") new_session))
    = "<html>X</html>" /\
  turnHistory (snd (main (scripted [Ok "<html>X</html>"])
                      (submit "make the button red") new_session))
    = [("user", "make the button red"); ("assistant", "<html>X</html>")].
Proof.
  exact (chat_turn_on_empty_html (scripted [Ok "<html>X</html>"])
           (submit "make the button red") new_session picture
           "make the button red" eq_refl eq_refl eq_refl eq_refl eq_refl).
Defined.

(** C2, as stated, fails: Scenario D.  Before any pipeline run
    [currentHTML] is empty; the follow-up is processed all the same, the
    history is changed and an "assistant" entry is appended. *)
Lemma follow_up_before_any_html_is_processed :
  currentHTML new_session = "" /\
  ("assistant", "<html>X</html>")
    ∈ turnHistory (snd (main (scripted [Ok "<html>X</html>"])
                          (submit "make the button red") new_session)) /\
  turnHistory (snd (main (scripted [Ok "<html>X</html>"])
                      (submit "make the button red") new_session))
    <> turnHistory new_session /\
  currentHTML (snd (main (scripted [Ok "<html>X</html>"])
                      (submit "make the button red") new_session))
    <> currentHTML new_session.
Proof.
  vm_compute. repeat split; try discriminate.
  apply list_elem_of_further, list_elem_of_here.
Qed.

(** C3. A chat turn appends the entry ("user", text) before the model
    is called and whatever the call does.  When the call returns,
    [currentHTML] becomes the returned text and ("assistant", text) is
    appended: two entries, "user" then "assistant".  When the call raises,
    [currentHTML] is unchanged and the "user" entry stays without an
    answer.  This holds of a run in which only a text is submitted, and
    of the block of lines 115-126 wherever it is evaluated. *)
Theorem chat_turn_appends_user_then_assistant respond t :
  (forall inp w image,
     uploaded_file inp = Some image ->
     button_code_ui inp = false ->
     chat_input inp = Some t ->
     truthy t = true ->
     match respond (chat_log w)
             (Text (chat_refine_html_prompt (currentHTML w) t)) with
     | Ok u =>
         currentHTML (snd (main respond inp w)) = u /\
         turnHistory (snd (main respond inp w))
           = turnHistory w ++ [("user", t); ("assistant", u)]
     | Raise e =>
         currentHTML (snd (main respond inp w)) = currentHTML w /\
         turnHistory (snd (main respond inp w))
           = turnHistory w ++ [("user", t)]
     end) /\
  (forall w h0 l0,
     refined_html (session_state w) = Some h0 ->
     chat_history (session_state w) = Some l0 ->
     match respond (chat_log w) (Text (chat_refine_html_prompt h0 t)) with
     | Ok u =>
         fst (chat_turn respond t w) = Ok tt /\
         currentHTML (snd (chat_turn respond t w)) = u /\
         turnHistory (snd (chat_turn respond t w))
           = l0 ++ [("user", t); ("assistant", u)]
     | Raise e =>
         fst (chat_turn respond t w) = Raise e /\
         currentHTML (snd (chat_turn respond t w)) = h0 /\
         turnHistory (snd (chat_turn respond t w)) = l0 ++ [("user", t)]
     end).
Proof.
  split.
  - intros inp w image Hup Hbtn Hci Ht.
    by destruct (main_chat_turn respond inp w image t Hup Hbtn Hci Ht).
  - intros w h0 l0. apply chat_turn_runs.
Qed.

(** Scenario B of the specification, and the same follow-up when the
    model raises. *)
Lemma chat_turn_appends_user_then_assistant_witness :
  (currentHTML
     (snd (main (scripted scenario_answers) (submit "make the button red")
             (snd (main (scripted scenario_answers) press_code_ui new_session))))
     = "<html>B-red</html>" /\
   turnHistory
     (snd (main (scripted scenario_answers) (submit "make the button red")
             (snd (main (scripted scenario_answers) press_code_ui new_session))))
     = [("Initial HTML Code", "<html>B</html>");
        ("user", "make the button red");
        ("assistant", "<html>B-red</html>")]) /\
  (currentHTML
     (snd (main (scripted []) (submit "make the button red")
             (snd (main (scripted scenario_answers) press_code_ui new_session))))
     = "<html>B</html>" /\
   turnHistory
     (snd (main (scripted []) (submit "make the button red")
             (snd (main (scripted scenario_answers) press_code_ui new_session))))
     = [("Initial HTML Code", "<html>B</html>");
        ("user", "make the button red")]).
Proof.
  split.
  - exact (proj1 (chat_turn_appends_user_then_assistant
                    (scripted scenario_answers) "make the button red")
             (submit "make the button red")
             (snd (main (scripted scenario_answers) press_code_ui new_session))
             picture eq_refl eq_refl eq_refl eq_refl).
  - exact (proj1 (chat_turn_appends_user_then_assistant
                    (scripted []) "make the button red")
             (submit "make the button red")
             (snd (main (scripted scenario_answers) press_code_ui new_session))
             picture eq_refl eq_refl eq_refl eq_refl).
Defined.

(** C4. When the model call of a pipeline stage raises -- the call
    number [k+1] of a run in which the button is pressed, with [k < 4] --
    no later call is made in that run (the remaining stages and the chat
    turn are not executed), [currentHTML] and the turn history are what
    they were before the run, entries appended earlier included, and the
    failure is reported on the page. *)
Theorem pipeline_failure_commits_nothing respond inp w image evs k c e :
  uploaded_file inp = Some image ->
  button_code_ui inp = true ->
  chat_log (snd (main respond inp w)) = chat_log w ++ evs ->
  k < 4 ->
  evs !! k = Some (Sent c (Raise e)) ->
  length evs = S k /\
  currentHTML (snd (main respond inp w)) = currentHTML w /\
  turnHistory (snd (main respond inp w)) = turnHistory w /\
  last (screen (snd (main respond inp w)))
    = Some (st_error ("An error occurred: " +:+ e)).
Proof.
  intros Hup Hbtn Hlog Hk Hraise.
  destruct (main_button_outcome respond inp w image Hup Hbtn)
    as (evs' & Hlog' & Hcases).
  rewrite Hlog in Hlog'. apply app_inv_head in Hlog'. subst evs'.
  destruct Hcases as
    [(pre & c' & e' & -> & Hlen & Hret & Hhtml & Hhist & Hscreen)
    |(stages & rest & -> & Hlen & Hret)].
  - apply lookup_app_Some in Hraise as [Hin|[Hge Hlast]].
    + by apply (Forall_lookup_1 _ _ _ _ Hret) in Hin.
    + destruct (k - length pre) as [|n] eqn:Hn; [|done].
      cbn in Hlast. injection Hlast as -> ->.
      rewrite length_app. cbn. repeat split; [lia | done..].
  - rewrite lookup_app_l in Hraise by lia.
    by apply (Forall_lookup_1 _ _ _ _ Hret) in Hraise.
Qed.

(** Scenario C of the specification: the model raises on stage 3. *)
Lemma pipeline_failure_commits_nothing_witness :
  length (chat_log (snd (main (scripted stage3_raises)
                           press_code_ui new_session))) = 3 /\
  currentHTML (snd (main (scripted stage3_raises) press_code_ui new_session))
    = "" /\
  turnHistory (snd (main (scripted stage3_raises) press_code_ui new_session))
    = [] /\
  last (screen (snd (main (scripted stage3_raises) press_code_ui new_session)))
    = Some (st_error ("An error occurred: " +:+ "quota exceeded")).
Proof.
  apply (pipeline_failure_commits_nothing (scripted stage3_raises)
           press_code_ui new_session picture _ 2
           (with_image picture (html_prompt "RD")) "quota exceeded");
    [reflexivity | reflexivity | reflexivity | lia | reflexivity].
Defined.

(** C5. The turn history is append-only: over any sequence of runs of
    the script (pipeline runs and chat turns, returning or raising), the
    history at the start is a prefix of the history at the end; so its
    length never decreases, and no entry is changed or deleted. *)
Theorem turn_history_append_only respond inps w :
  turnHistory w `prefix_of` turnHistory (run_session respond inps w) /\
  length (turnHistory w) <= length (turnHistory (run_session respond inps w)) /\
  (forall i entry,
     turnHistory w !! i = Some entry ->
     turnHistory (run_session respond inps w) !! i = Some entry).
Proof.
  assert (turnHistory w `prefix_of` turnHistory (run_session respond inps w))
    as Hprefix.
  { apply (run_session_invariant respond
             (on_history (fun l => turnHistory w `prefix_of` l))
             (fun _ => True)).
    - intros inp _. apply script_on_history.
      + intros l text. apply prefix_app_r.
      + intros _ l role text _. apply prefix_app_r.
    - by apply Forall_forall.
    - unfold on_history. reflexivity. }
  split; [done|]. split; [by apply prefix_length|].
  intros i entry Hi. by eapply prefix_lookup_Some.
Qed.

Lemma turn_history_append_only_witness :
  turnHistory
    (run_session (scripted scenario_answers) [submit "make the button red"]
       (run (scripted scenario_answers) press_code_ui new_session))
    !! 0 = Some ("Initial HTML Code", "<html>B</html>").
Proof.
  apply (proj2 (proj2 (turn_history_append_only (scripted scenario_answers)
                         [submit "make the button red"]
                         (run (scripted scenario_answers) press_code_ui
                            new_session)))).
  reflexivity.
Defined.


(** C7. The four stage calls are made one after the other, each with
    the uploaded picture attached, and the prompt of each stage after the
    first ends with the text the stage before returned.  The call of a
    chat turn has no picture, and its prompt contains the current page
    and the request of the user. *)
Theorem model_calls_as_built respond inp w image :
  uploaded_file inp = Some image ->
  (forall d rd h r,
     truthy (tempfile_name inp) = true ->
     button_code_ui inp = true ->
     submits_text inp = false ->
     stages_return respond (chat_log w) image d rd h r ->
     chat_log (snd (main respond inp w))
       = chat_log w ++
         [ Sent (TextWithImage prompt
                   {| mime_type := "image/jpeg"; data := image |}) (Ok d);
           Sent (TextWithImage (refine_prompt d)
                   {| mime_type := "image/jpeg"; data := image |}) (Ok rd);
           Sent (TextWithImage (html_prompt rd)
                   {| mime_type := "image/jpeg"; data := image |}) (Ok h);
           Sent (TextWithImage (refine_html_prompt h)
                   {| mime_type := "image/jpeg"; data := image |}) (Ok r) ] /\
     substring_of d (refine_prompt d) /\
     substring_of rd (html_prompt rd) /\
     substring_of h (refine_html_prompt h)) /\
  (forall t,
     button_code_ui inp = false ->
     chat_input inp = Some t ->
     truthy t = true ->
     exists answer,
       chat_log (snd (main respond inp w))
         = chat_log w ++
           [Sent (Text (chat_refine_html_prompt (currentHTML w) t)) answer] /\
       substring_of (currentHTML w)
         (chat_refine_html_prompt (currentHTML w) t) /\
       substring_of t (chat_refine_html_prompt (currentHTML w) t)).
Proof.
  intros Hup. split.
  - intros d rd h r Hname Hbtn Hci Hret.
    destruct (main_pipeline_returns respond inp w image d rd h r
                Hup Hname Hbtn Hci Hret) as (_ & _ & Hlog).
    split; [exact Hlog|].
    unfold refine_prompt, html_prompt, refine_html_prompt.
    repeat split; rewrite <- ?string_app_assoc; apply substring_of_suffix.
  - intros t Hbtn Hci Ht.
    destruct (main_chat_turn respond inp w image t Hup Hbtn Hci Ht)
      as [Hlog _].
    eexists. split; [exact Hlog|]. apply chat_prompt_embeds.
Qed.

Lemma model_calls_as_built_witness :
  chat_log (snd (main (scripted scenario_answers) press_code_ui new_session))
    = [ Sent (TextWithImage prompt
                {| mime_type := "image/jpeg"; data := picture |}) (Ok "D");
        Sent (TextWithImage (refine_prompt "D")
                {| mime_type := "image/jpeg"; data := picture |}) (Ok "RD");
        Sent (TextWithImage (html_prompt "RD")
                {| mime_type := "image/jpeg"; data := picture |})
          (Ok "<html>A</html>");
        Sent (TextWithImage (refine_html_prompt "<html>A</html>")
                {| mime_type := "image/jpeg"; data := picture |})
          (Ok "<html>B</html>") ] /\
  exists answer,
    chat_log (snd (main (scripted [Ok "<html>X</html>"])
                     (submit "make the button red") new_session))
      = [Sent (Text (chat_refine_html_prompt "" "make the button red")) answer].
Proof.
  split.
  - apply (proj1 (model_calls_as_built (scripted scenario_answers)
                    press_code_ui new_session picture eq_refl)
             "D" "RD" "<html>A</html>" "<html>B</html>");
      try reflexivity.
    repeat split; reflexivity.
  - destruct (proj2 (model_calls_as_built (scripted [Ok "<html>X</html>"])
                       (submit "make the button red") new_session picture
                       eq_refl)
                "make the button red" eq_refl eq_refl eq_refl)
      as (answer & Hlog & _).
    by exists answer.
Defined.

(** C8, as the script has it.  Under a deterministic model, submitting
    the same text a second time appends exactly one ("user", text) and
    one ("assistant", answer) pair, and [currentHTML] becomes what the
    model returns for the prompt that embeds the page of the first
    submission.  It is the page of the first submission when the model
    returns the same text for both prompts. *)
Theorem resend_under_deterministic_model
    respond inp1 inp2 w image1 image2 t u1 u2 :
  deterministic respond ->
  uploaded_file inp1 = Some image1 ->
  button_code_ui inp1 = false ->
  chat_input inp1 = Some t ->
  uploaded_file inp2 = Some image2 ->
  button_code_ui inp2 = false ->
  chat_input inp2 = Some t ->
  truthy t = true ->
  respond [] (Text (chat_refine_html_prompt (currentHTML w) t)) = Ok u1 ->
  respond [] (Text (chat_refine_html_prompt u1 t)) = Ok u2 ->
  currentHTML (run respond inp1 w) = u1 /\
  currentHTML (run respond inp2 (run respond inp1 w)) = u2 /\
  turnHistory (run respond inp2 (run respond inp1 w))
    = turnHistory (run respond inp1 w) ++ [("user", t); ("assistant", u2)] /\
  (u2 = u1 ->
   currentHTML (run respond inp2 (run respond inp1 w))
     = currentHTML (run respond inp1 w)).
Proof.
  intros Hdet Hup1 Hbtn1 Hci1 Hup2 Hbtn2 Hci2 Ht Hu1 Hu2.
  assert (currentHTML (run respond inp1 w) = u1) as Hfirst.
  { rewrite run_as_main.
    destruct (main_chat_turn respond inp1
                (set_chat_log (chat_log w ++ [StartChat]) w) image1 t
                Hup1 Hbtn1 Hci1 Ht) as [_ Hturn].
    change (currentHTML (set_chat_log (chat_log w ++ [StartChat]) w))
      with (currentHTML w) in Hturn.
    rewrite (Hdet _ []), Hu1 in Hturn. by destruct Hturn. }
  assert (currentHTML (run respond inp2 (run respond inp1 w)) = u2 /\
          turnHistory (run respond inp2 (run respond inp1 w))
            = turnHistory (run respond inp1 w)
              ++ [("user", t); ("assistant", u2)]) as [Hhtml Hhist].
  { rewrite (run_as_main respond inp2).
    set (w1 := run respond inp1 w) in *.
    destruct (main_chat_turn respond inp2
                (set_chat_log (chat_log w1 ++ [StartChat]) w1) image2 t
                Hup2 Hbtn2 Hci2 Ht) as [_ Hturn].
    change (currentHTML (set_chat_log (chat_log w1 ++ [StartChat]) w1))
      with (currentHTML w1) in Hturn.
    change (turnHistory (set_chat_log (chat_log w1 ++ [StartChat]) w1))
      with (turnHistory w1) in Hturn.
    by rewrite Hfirst, (Hdet _ []), Hu2 in Hturn. }
  repeat split; [done..|]. intros Heq. by rewrite Hhtml, Hfirst.
Qed.

Lemma resend_under_deterministic_model_witness :
  currentHTML (run two_pages (submit "make the button red")
                 (run two_pages press_code_ui new_session))
    = "<html>F</html>" /\
  currentHTML
    (run two_pages (submit_again "make the button red")
       (run two_pages (submit "make the button red")
          (run two_pages press_code_ui new_session)))
    = "<html>F</html>" /\
  turnHistory
    (run two_pages (submit_again "make the button red")
       (run two_pages (submit "make the button red")
          (run two_pages press_code_ui new_session)))
    = turnHistory (run two_pages (submit "make the button red")
                     (run two_pages press_code_ui new_session))
      ++ [("user", "make the button red"); ("assistant", "<html>F</html>")].
Proof.
  destruct (resend_under_deterministic_model two_pages
              (submit "make the button red")
              (submit_again "make the button red")
              (run two_pages press_code_ui new_session) picture picture
              "make the button red" "<html>F</html>" "<html>F</html>")
    as (H1 & H2 & H3 & _); try reflexivity.
  - by intros L L' c.
  - by repeat split.
Defined.

(** C8, as stated, fails: a model that returns the message it is sent
    is a deterministic function of its input, and the second submission
    of the same text gives another page than the first. *)
Lemma resend_changes_current_html :
  deterministic echo /\
  currentHTML (run echo (submit_again "make the button red")
                 (run echo (submit "make the button red") new_session))
    <> currentHTML (run echo (submit "make the button red") new_session).
Proof.
  split; [by intros L L' c|].
  intros Heq. apply (f_equal String.length) in Heq.
  vm_compute in Heq. discriminate.
Qed.

(** C9, as the script has it.  A stage that returns an empty text does
    not make the run fail: the text is embedded in the next prompt like
    any other, the four calls are made, [currentHTML] becomes the text of
    the fourth call (the empty text when the fourth call returned it),
    and one entry with that text is appended. *)
Theorem empty_stage_text_is_threaded respond inp w image d rd h r :
  uploaded_file inp = Some image ->
  truthy (tempfile_name inp) = true ->
  button_code_ui inp = true ->
  submits_text inp = false ->
  stages_return respond (chat_log w) image d rd h r ->
  d = "" \/ rd = "" \/ h = "" \/ r = "" ->
  chat_log (snd (main respond inp w))
    = chat_log w ++ stage_events image d rd h r /\
  currentHTML (snd (main respond inp w)) = r /\
  turnHistory (snd (main respond inp w))
    = turnHistory w ++ [("Initial HTML Code", r)].
Proof.
  intros Hup Hname Hbtn Hci Hret _.
  destruct (main_pipeline_returns respond inp w image d rd h r
              Hup Hname Hbtn Hci Hret) as (Hhtml & Hhist & Hlog).
  by repeat split.
Qed.

Lemma empty_stage_text_is_threaded_witness :
  chat_log (snd (main (scripted [Ok "D"; Ok "RD"; Ok "<html>A</html>"; Ok ""])
                   press_code_ui new_session))
    = stage_events picture "D" "RD" "<html>A</html>" "" /\
  currentHTML (snd (main (scripted [Ok "D"; Ok "RD"; Ok "<html>A</html>"; Ok ""])
                      press_code_ui new_session)) = "" /\
  turnHistory (snd (main (scripted [Ok "D"; Ok "RD"; Ok "<html>A</html>"; Ok ""])
                      press_code_ui new_session))
    = [("Initial HTML Code", "")].
Proof.
  apply (empty_stage_text_is_threaded
           (scripted [Ok "D"; Ok "RD"; Ok "<html>A</html>"; Ok ""])
           press_code_ui new_session picture "D" "RD" "<html>A</html>" "");
    try reflexivity.
  - repeat split; reflexivity.
  - by do 3 right.
Defined.

(** C9, as stated, fails: the first stage returns the empty text, the
    run goes on, commits the page of the fourth stage and appends an
    entry for it. *)
Lemma empty_description_is_not_a_failure :
  chat_log (snd (main (scripted empty_description) press_code_ui new_session))
    !! 0 = Some (Sent (with_image picture prompt) (Ok "")) /\
  length (chat_log (snd (main (scripted empty_description)
                           press_code_ui new_session))) = 4 /\
  currentHTML (snd (main (scripted empty_description)
                      press_code_ui new_session)) = "<html>B</html>" /\
  turnHistory (snd (main (scripted empty_description)
                      press_code_ui new_session))
    = [("Initial HTML Code", "<html>B</html>")].
Proof. vm_compute. by repeat split. Qed.

(** In a session without chat turns every entry has the role of
    line 105. *)
Lemma pipeline_only_roles respond inps :
  Forall (fun inp => submits_text inp = false) inps ->
  Forall (fun e => fst e = "Initial HTML Code")
    (turnHistory (run_session respond inps new_session)).
Proof.
  intros Hno.
  apply (run_session_invariant respond
           (on_history (Forall (fun e => fst e = "Initial HTML Code")))
           (fun inp => submits_text inp = false)); [|done|].
  - intros inp Hinp. apply script_on_history.
    + intros l text Hl. apply Forall_app. split; [done|]. by repeat constructor.
    + intros Hyes. by rewrite Hinp in Hyes.
  - apply Forall_nil. done.
Qed.

(** C10. The entry that a pipeline run appends has the role
    "Initial HTML Code", not "assistant"; a chat turn appends its
    entries under the roles "user" and "assistant".  So in a session in
    which no text has been submitted yet, whatever the pipeline runs did,
    every entry of the turn history has the role "Initial HTML Code" and
    none has the role "assistant". *)
Theorem history_roles respond :
  (forall inp w image d rd h r,
     uploaded_file inp = Some image ->
     truthy (tempfile_name inp) = true ->
     button_code_ui inp = true ->
     submits_text inp = false ->
     stages_return respond (chat_log w) image d rd h r ->
     turnHistory (snd (main respond inp w))
       = turnHistory w ++ [("Initial HTML Code", r)]) /\
  (forall inp w image t u,
     uploaded_file inp = Some image ->
     button_code_ui inp = false ->
     chat_input inp = Some t ->
     truthy t = true ->
     respond (chat_log w) (Text (chat_refine_html_prompt (currentHTML w) t))
       = Ok u ->
     turnHistory (snd (main respond inp w))
       = turnHistory w ++ [("user", t); ("assistant", u)]) /\
  (forall inps entry,
     Forall (fun inp => submits_text inp = false) inps ->
     entry ∈ turnHistory (run_session respond inps new_session) ->
     fst entry = "Initial HTML Code" /\ fst entry <> "assistant").
Proof.
  split; [|split].
  - intros inp w image d rd h r Hup Hname Hbtn Hci Hret.
    by destruct (main_pipeline_returns respond inp w image d rd h r
                   Hup Hname Hbtn Hci Hret) as (_ & Hhist & _).
  - intros inp w image t u Hup Hbtn Hci Ht Hu.
    destruct (main_chat_turn respond inp w image t Hup Hbtn Hci Ht)
      as [_ Hturn].
    rewrite Hu in Hturn. by destruct Hturn.
  - intros inps entry Hno Hin.
    pose proof (pipeline_only_roles respond inps Hno) as Hall.
    rewrite Forall_forall in Hall. specialize (Hall _ Hin).
    split; [done|]. rewrite Hall. discriminate.
Qed.

Lemma history_roles_witness :
  turnHistory (snd (main (scripted scenario_answers) press_code_ui new_session))
    = [("Initial HTML Code", "<html>B</html>")] /\
  turnHistory (snd (main (scripted [Ok "<html>X</html>"])
                      (submit "make the button red") new_session))
    = [("user", "make the button red"); ("assistant", "<html>X</html>")] /\
  (fst ("Initial HTML Code", "<html>B</html>") = "Initial HTML Code" /\
   fst ("Initial HTML Code", "<html>B</html>") <> "assistant").
Proof.
  split; [|split].
  - apply (proj1 (history_roles (scripted scenario_answers))
             press_code_ui new_session picture
             "D" "RD" "<html>A</html>" "<html>B</html>");
      try reflexivity.
    repeat split; reflexivity.
  - exact (proj1 (proj2 (history_roles (scripted [Ok "<html>X</html>"])))
             (submit "make the button red") new_session picture
             "make the button red" "<html>X</html>"
             eq_refl eq_refl eq_refl eq_refl eq_refl).
  - apply (proj2 (proj2 (history_roles (scripted scenario_answers)))
             [press_code_ui; press_code_ui_again]).
    + by repeat constructor.
    + vm_compute. apply list_elem_of_here.
Defined.

(** ** Rules for what a computation keeps and adds *)

Section Keeps.

Context {A B C : Type}.

Lemma keeps_ret (f : World -> C) (a : A) : keeps f (mret a : Py A).
Proof. by intros w. Qed.

Lemma keeps_bind (f : World -> C) (m : Py A) (k : A -> Py B) :
  keeps f m -> (forall a, keeps f (k a)) -> keeps f (m ≫= k).
Proof.
  intros Hm Hk w. specialize (Hm w). unfold mbind, py_bind.
  destruct (m w) as [[a|e] w1]; cbn in *; [|done]. by rewrite Hk.
Qed.

Lemma adds_ret (a : A) : adds_at_most 0 (mret a : Py A).
Proof. intros w. exists []. by rewrite app_nil_r. Qed.

Lemma adds_bind n k (m : Py A) (f : A -> Py B) :
  adds_at_most n m -> (forall a, adds_at_most k (f a)) ->
  adds_at_most (n + k) (m ≫= f).
Proof.
  intros Hm Hf w. destruct (Hm w) as (evs & Hlog & Hlen).
  unfold mbind, py_bind. destruct (m w) as [[a|e] w1]; cbn in *.
  - destruct (Hf a w1) as (evs' & Hlog' & Hlen').
    exists (evs ++ evs'). rewrite Hlog', Hlog, length_app, app_assoc.
    split; [done | lia].
  - exists evs. split; [done | lia].
Qed.

Lemma adds_weaken n n' (m : Py A) :
  adds_at_most n m -> n <= n' -> adds_at_most n' m.
Proof.
  intros Hm Hle w. destruct (Hm w) as (evs & Hlog & Hlen).
  exists evs. split; [done | lia].
Qed.

Lemma adds_none (m : Py A) : keeps chat_log m -> adds_at_most 0 m.
Proof. intros Hm w. exists []. by rewrite Hm, app_nil_r. Qed.

End Keeps.

Lemma keeps_try_except {C : Type} (f : World -> C) body handler :
  keeps f body -> (forall e, keeps f (handler e)) ->
  keeps f (try_except body handler).
Proof.
  intros Hb Hh w. specialize (Hb w). unfold try_except.
  destruct (body w) as [[[]|e] w1]; cbn in *; [done|]. by rewrite Hh.
Qed.

Lemma adds_try_except n k body handler :
  adds_at_most n body -> (forall e, adds_at_most k (handler e)) ->
  adds_at_most (n + k) (try_except body handler).
Proof.
  intros Hb Hh w. destruct (Hb w) as (evs & Hlog & Hlen). unfold try_except.
  destruct (body w) as [[[]|e] w1]; cbn in *.
  - exists evs. split; [done | lia].
  - destruct (Hh e w1) as (evs' & Hlog' & Hlen').
    exists (evs ++ evs'). rewrite Hlog', Hlog, length_app, app_assoc.
    split; [done | lia].
Qed.

Section Frames.

Variable respond : list ChatEvent -> Content -> result string.

Lemma show_keeps_files e : keeps files (show e).
Proof. by intros w. Qed.

Lemma show_keeps_log e : keeps chat_log (show e).
Proof. by intros w. Qed.

Lemma get_refined_html_keeps {C : Type} (f : World -> C) :
  keeps f get_refined_html.
Proof.
  intros w. unfold get_refined_html.
  by destruct (refined_html (session_state w)).
Qed.

Lemma get_chat_history_keeps {C : Type} (f : World -> C) :
  keeps f get_chat_history.
Proof.
  intros w. unfold get_chat_history.
  by destruct (chat_history (session_state w)).
Qed.

Lemma set_refined_html_keeps_files h : keeps files (set_refined_html h).
Proof. by intros w. Qed.

Lemma set_refined_html_keeps_log h : keeps chat_log (set_refined_html h).
Proof. by intros w. Qed.

Lemma append_chat_history_keeps_files entry :
  keeps files (append_chat_history entry).
Proof.
  apply keeps_bind; [apply get_chat_history_keeps | by intros l w].
Qed.

Lemma append_chat_history_keeps_log entry :
  keeps chat_log (append_chat_history entry).
Proof.
  apply keeps_bind; [apply get_chat_history_keeps | by intros l w].
Qed.

Lemma init_session_state_keeps_files : keeps files init_session_state.
Proof. by intros [[[h|] [l|]] fs lg sc]. Qed.

Lemma init_session_state_keeps_log : keeps chat_log init_session_state.
Proof. by intros [[[h|] [l|]] fs lg sc]. Qed.

Lemma send_message_to_model_keeps_files message image_path :
  keeps files (send_message_to_model respond message image_path).
Proof.
  intros w. unfold send_message_to_model.
  destruct image_path as [path|]; [|done].
  destruct (truthy path); [|done].
  unfold read_bytes, mbind, py_bind. by destruct (files w !! path).
Qed.

Lemma send_message_to_model_adds message image_path :
  adds_at_most 1 (send_message_to_model respond message image_path).
Proof.
  intros w. unfold send_message_to_model.
  destruct image_path as [path|]; [|by eexists [_]].
  destruct (truthy path); [|by eexists [_]].
  unfold read_bytes, mbind, py_bind.
  destruct (files w !! path); [by eexists [_]|].
  exists []. cbn. rewrite app_nil_r. split; [done | lia].
Qed.

Lemma display_chat_history_keeps_files : keeps files display_chat_history.
Proof.
  apply keeps_bind; [apply get_chat_history_keeps | by intros l w].
Qed.

Lemma display_chat_history_keeps_log : keeps chat_log display_chat_history.
Proof.
  apply keeps_bind; [apply get_chat_history_keeps | by intros l w].
Qed.

Lemma display_refined_html_keeps_files : keeps files display_refined_html.
Proof.
  apply keeps_bind; [apply get_refined_html_keeps | intros html].
  destruct (truthy html); [|apply keeps_ret].
  repeat first
    [ apply show_keeps_files
    | apply get_refined_html_keeps
    | apply keeps_bind; [|intros ?] ].
Qed.

Lemma display_refined_html_keeps_log : keeps chat_log display_refined_html.
Proof.
  intros w. by destruct (display_refined_html_frame w).
Qed.

Lemma code_ui_keeps_files temp_image_path :
  keeps files (code_ui respond temp_image_path).
Proof.
  unfold code_ui.
  repeat first
    [ apply send_message_to_model_keeps_files
    | apply show_keeps_files
    | apply set_refined_html_keeps_files
    | apply get_refined_html_keeps
    | apply append_chat_history_keeps_files
    | apply keeps_bind; [|intros ?] ].
Qed.

Lemma chat_turn_keeps_files user_input :
  keeps files (chat_turn respond user_input).
Proof.
  unfold chat_turn.
  repeat first
    [ apply send_message_to_model_keeps_files
    | apply show_keeps_files
    | apply set_refined_html_keeps_files
    | apply get_refined_html_keeps
    | apply append_chat_history_keeps_files
    | apply keeps_bind; [|intros ?] ].
Qed.

Ltac adds_step :=
  first
    [ apply send_message_to_model_adds
    | apply adds_none;
      first [ apply show_keeps_log | apply set_refined_html_keeps_log
            | apply get_refined_html_keeps | apply append_chat_history_keeps_log
            | apply display_chat_history_keeps_log
            | apply display_refined_html_keeps_log
            | apply init_session_state_keeps_log ]
    | apply adds_ret
    | eapply adds_bind; [|intros ?] ].

Lemma code_ui_adds temp_image_path :
  adds_at_most 4 (code_ui respond temp_image_path).
Proof.
  unfold code_ui. eapply adds_weaken; [repeat adds_step | cbn; lia].
Qed.

Lemma chat_turn_adds user_input :
  adds_at_most 1 (chat_turn respond user_input).
Proof.
  unfold chat_turn. eapply adds_weaken; [repeat adds_step | cbn; lia].
Qed.

Lemma main_adds inp : adds_at_most (calls_allowed inp) (main respond inp).
Proof.
  unfold main, calls_allowed.
  destruct (uploaded_file inp) as [image|].
  - eapply adds_weaken.
    + eapply adds_bind; [apply adds_none, show_keeps_log | intros _].
      eapply adds_try_except;
        [|intros e; apply adds_none, show_keeps_log].
      unfold main_body.
      eapply adds_bind; [apply adds_none, show_keeps_log | intros _].
      eapply adds_bind; [apply adds_none; by intros w | intros path].
      eapply adds_bind;
        [apply adds_none, init_session_state_keeps_log | intros _].
      eapply adds_bind; [|intros _].
      { instantiate (1 := if button_code_ui inp then 4 else 0).
        destruct (button_code_ui inp); [apply code_ui_adds | apply adds_ret]. }
      eapply adds_bind;
        [apply adds_none, display_chat_history_keeps_log | intros _].
      eapply adds_bind;
        [|intros _; apply adds_none, display_refined_html_keeps_log].
      instantiate (1 := if submits_text inp then 1 else 0).
      unfold submits_text.
      destruct (chat_input inp) as [t|]; [|apply adds_ret].
      destruct (truthy t); [apply chat_turn_adds | apply adds_ret].
    + cbn. lia.
  - eapply adds_weaken.
    + eapply adds_bind; [apply adds_none, show_keeps_log | intros _].
      apply adds_ret.
    + cbn. lia.
Qed.

End Frames.

(** ** Stepping through the body of [try] *)

Lemma bind_ok {A B : Type} (m : Py A) (k : A -> Py B) w a w1 :
  m w = (Ok a, w1) -> (m ≫= k) w = k a w1.
Proof. intros Hm. unfold mbind, py_bind. by rewrite Hm. Qed.

Lemma bind_raise {A B : Type} (m : Py A) (k : A -> Py B) w e w1 :
  m w = (Raise e, w1) -> (m ≫= k) w = (Raise e, w1).
Proof. intros Hm. unfold mbind, py_bind. by rewrite Hm. Qed.

Lemma init_session_state_returns w :
  exists w1,
    init_session_state w = (Ok tt, w1) /\
    keys_assigned w1 /\
    currentHTML w1 = currentHTML w /\ turnHistory w1 = turnHistory w /\
    files w1 = files w /\ chat_log w1 = chat_log w.
Proof.
  destruct w as [[[h|] [l|]] fs lg sc]; eexists;
    (split; [reflexivity|]); repeat split; by eexists.
Qed.

Lemma display_refined_html_returns w h :
  refined_html (session_state w) = Some h ->
  fst (display_refined_html w) = Ok tt.
Proof.
  destruct w as [[rh ch] fs lg sc]. cbn. intros ->.
  py_unfold. by destruct (truthy h).
Qed.

Section More.

Variable respond : list ChatEvent -> Content -> result string.

(** What follows the pipeline in [main_body] raises only when the model
    call of the chat turn raises. *)
Lemma after_pipeline_raises ci w h l e :
  refined_html (session_state w) = Some h ->
  chat_history (session_state w) = Some l ->
  fst ((display_chat_history;;
        match ci with
        | Some user_input =>
            if truthy user_input then chat_turn respond user_input else mret tt
        | None => mret tt
        end;;
        display_refined_html) w) = Raise e ->
  exists c,
    chat_log (snd ((display_chat_history;;
                    match ci with
                    | Some user_input =>
                        if truthy user_input
                        then chat_turn respond user_input else mret tt
                    | None => mret tt
                    end;;
                    display_refined_html) w))
      = chat_log w ++ [Sent c (Raise e)].
Proof.
  intros Hh Hl.
  destruct (display_chat_history_frame w l Hl) as (w1 & Hshow & Hs1 & Hl1).
  rewrite (bind_ok _ _ _ _ _ Hshow).
  assert (refined_html (session_state w1) = Some h) as Hh1 by by rewrite Hs1.
  assert (chat_history (session_state w1) = Some l) as Hc1 by by rewrite Hs1.
  destruct ci as [t|]; [destruct (truthy t)|].
  - pose proof (chat_turn_outcome respond t w1 h l Hh1 Hc1) as Hturn.
    destruct (chat_turn respond t w1) as [[[]|e'] w2] eqn:Hrun.
    + destruct Hturn as (u & c & _ & Hs2).
      rewrite (bind_ok _ _ _ _ _ Hrun).
      rewrite (display_refined_html_returns w2 u); [done | by rewrite Hs2].
    + destruct Hturn as (c & Hlog & _).
      rewrite (bind_raise _ _ _ _ _ Hrun). cbn. intros [= ->].
      exists c. by rewrite Hlog, Hl1.
  - rewrite (bind_ok _ _ w1 tt w1 eq_refl).
    by rewrite (display_refined_html_returns w1 h).
  - rewrite (bind_ok _ _ w1 tt w1 eq_refl).
    by rewrite (display_refined_html_returns w1 h).
Qed.

End More.

Lemma keeps_session_keys_assigned {A : Type} (m : Py A) :
  keeps session_state m -> preserves keys_assigned m.
Proof. intros Hm w Hw. unfold keys_assigned. by rewrite Hm. Qed.

Section Keys.

Variable respond : list ChatEvent -> Content -> result string.

Lemma send_message_to_model_keeps_session message image_path :
  keeps session_state (send_message_to_model respond message image_path).
Proof.
  intros w. unfold send_message_to_model.
  destruct image_path as [path|]; [|done].
  destruct (truthy path); [|done].
  unfold read_bytes, mbind, py_bind. by destruct (files w !! path).
Qed.

Lemma set_refined_html_keys_assigned h :
  preserves keys_assigned (set_refined_html h).
Proof. intros w [_ Hl]. by split; [eexists|]. Qed.

Lemma append_chat_history_keys_assigned entry :
  preserves keys_assigned (append_chat_history entry).
Proof.
  intros [[rh [l|]] fs lg sc] [Hh Hl]; [|done]. by split; [|eexists].
Qed.

Ltac keys_step :=
  first
    [ apply keeps_session_keys_assigned;
      first [ apply send_message_to_model_keeps_session
            | apply get_refined_html_keeps
            | by intros w ]
    | apply set_refined_html_keys_assigned
    | apply append_chat_history_keys_assigned
    | apply hoare_ret
    | apply hoare_bind; [|intros ?] ].

Lemma code_ui_keys_assigned temp_image_path :
  preserves keys_assigned (code_ui respond temp_image_path).
Proof. unfold code_ui. repeat keys_step. Qed.

Lemma chat_turn_keys_assigned user_input :
  preserves keys_assigned (chat_turn respond user_input).
Proof. unfold chat_turn. repeat keys_step. Qed.

Lemma main_body_keys_assigned image inp w :
  keys_assigned (snd (main_body respond image inp w)).
Proof.
  unfold main_body.
  rewrite (bind_ok _ _ _ _ _ (eq_refl : show _ w = (Ok tt, _))).
  set (w0 := set_screen _ w).
  rewrite (bind_ok _ _ _ _ _
             (eq_refl : save_temp_image image (tempfile_name inp) w0
                        = (Ok (tempfile_name inp), _))).
  set (w1 := set_files _ w0).
  destruct (init_session_state_returns w1) as (w2 & Hinit & Hkeys & _).
  rewrite (bind_ok _ _ _ _ _ Hinit).
  clear Hinit. revert w2 Hkeys.
  apply hoare_bind; [|intros _].
  { destruct (button_code_ui inp);
      [apply code_ui_keys_assigned | apply hoare_ret]. }
  apply hoare_bind;
    [apply keeps_session_keys_assigned; intros w2;
     by destruct (display_chat_history_is_frame w2) | intros _].
  apply hoare_bind;
    [| intros _; apply keeps_session_keys_assigned; intros w2;
       by destruct (display_refined_html_frame w2)].
  destruct (chat_input inp) as [t|]; [|apply hoare_ret].
  destruct (truthy t); [apply chat_turn_keys_assigned | apply hoare_ret].
Qed.

End Keys.

Ltac page_done :=
  intros ->; cbn;
  repeat match goal with
         | H : truthy ?s = _ |- context [truthy ?s] => rewrite H
         end;
  cbn; rewrite <- ?app_assoc, ?app_nil_r; cbn; done.


(** ** Further properties of the script *)

(** X1. [send_message_to_model] at its edges.  With a non-empty path
    under which there is no file, reading the file raises before
    anything is sent: no model call is made and the world is unchanged.
    With the empty path the message is sent as with no path at all,
    without a picture. *)
Theorem send_message_to_model_edges respond message w :
  (forall path,
     truthy path = true ->
     files w !! path = None ->
     exists e,
       send_message_to_model respond message (Some path) w = (Raise e, w)) /\
  send_message_to_model respond message (Some "") w
    = send_message_to_model respond message None w /\
  chat_log (snd (send_message_to_model respond message None w))
    = chat_log w ++ [Sent (Text message) (respond (chat_log w) (Text message))].
Proof.
  split; [|by split].
  intros path Hpath Hfile.
  unfold send_message_to_model, read_bytes, mbind, py_bind.
  rewrite Hpath, Hfile. by eexists.
Qed.

Lemma send_message_to_model_edges_witness :
  exists e,
    send_message_to_model echo prompt (Some "/tmp/gone.jpg") new_session
      = (Raise e, new_session).
Proof.
  apply (proj1 (send_message_to_model_edges echo prompt new_session)
           "/tmp/gone.jpg"); reflexivity.
Defined.

(** X2. Without an uploaded file [main] shows the title and does nothing
    else, whatever the button and the chat input hold: the session state
    is not initialised or changed, no file is written and no model call
    is made. *)
Theorem main_without_upload respond inp w :
  uploaded_file inp = None ->
  session_state (snd (main respond inp w)) = session_state w /\
  files (snd (main respond inp w)) = files w /\
  chat_log (snd (main respond inp w)) = chat_log w /\
  screen (snd (main respond inp w))
    = screen w ++ [st_title "UI to HTML with Gemini"].
Proof.
  intros Hup. unfold main, mbind, py_bind. cbn. by rewrite Hup.
Qed.

Lemma main_without_upload_witness :
  session_state (snd (main echo no_upload new_session))
    = session_state new_session /\
  files (snd (main echo no_upload new_session)) = files new_session /\
  chat_log (snd (main echo no_upload new_session)) = chat_log new_session /\
  screen (snd (main echo no_upload new_session))
    = screen new_session ++ [st_title "UI to HTML with Gemini"].
Proof. exact (main_without_upload echo no_upload new_session eq_refl). Defined.

(** In the body of [try] as modelled, an exception is the one of the
    last model call. *)
Lemma main_body_raise_is_model_raise respond image inp w e :
  fst (main_body respond image inp w) = Raise e ->
  exists c evs,
    chat_log (snd (main_body respond image inp w))
      = chat_log w ++ evs ++ [Sent c (Raise e)].
Proof.
  unfold main_body.
  rewrite (bind_ok _ _ _ _ _ (eq_refl : show _ w = (Ok tt, _))).
  set (w0 := set_screen _ w).
  rewrite (bind_ok _ _ _ _ _
             (eq_refl : save_temp_image image (tempfile_name inp) w0
                        = (Ok (tempfile_name inp), _))).
  set (w1 := set_files _ w0).
  destruct (init_session_state_returns w1)
    as (w2 & Hinit & [[h Hh] [l Hl]] & _ & _ & Hfiles & Hlog).
  rewrite (bind_ok _ _ _ _ _ Hinit).
  assert (files w2 !! tempfile_name inp = Some image) as Hfile.
  { rewrite Hfiles. apply lookup_insert_eq. }
  change (chat_log w) with (chat_log w1). rewrite <- Hlog.
  destruct (button_code_ui inp).
  - pose proof (code_ui_outcome respond _ image w2 h l Hfile Hh Hl) as Hcode.
    destruct (code_ui respond (tempfile_name inp) w2) as [[[]|e'] w3] eqn:Hrun.
    + destruct Hcode as (r & c & stages & Hlog3 & _ & _ & Hs3).
      rewrite (bind_ok _ _ _ _ _ Hrun). intros Hraise.
      destruct (after_pipeline_raises respond (chat_input inp) w3 r _ e
                  ltac:(by rewrite Hs3) ltac:(by rewrite Hs3) Hraise)
        as (c' & Hlast).
      exists c', (stages ++ [Sent c (Ok r)]).
      by rewrite Hlast, Hlog3, <- !app_assoc.
    + destruct Hcode as (evs & c & Hlog3 & _).
      rewrite (bind_raise _ _ _ _ _ Hrun). cbn. intros [= ->].
      by exists c, evs.
  - rewrite (bind_ok _ _ w2 tt w2 eq_refl). intros Hraise.
    destruct (after_pipeline_raises respond (chat_input inp) w2 h l e
                Hh Hl Hraise) as (c' & Hlast).
    exists c', []. by rewrite Hlast.
Qed.

(** X4. When the body of [try] raises in a run in which a model call
    has been made, the exception is the one of a model call, and that
    call is the last thing that happened on the model side.  Once the
    picture is saved and the first call is reached, nothing else in the
    body fails: the temporary file is there when it is read (lines 52,
    76-78) and the two keys of the session state are assigned before
    they are read (lines 81-84). *)
Theorem raise_after_model_call_is_its_exception respond image inp w e :
  fst (main_body respond image inp w) = Raise e ->
  chat_log (snd (main_body respond image inp w)) <> chat_log w ->
  exists c evs,
    chat_log (snd (main_body respond image inp w))
      = chat_log w ++ evs ++ [Sent c (Raise e)].
Proof.
  intros Hraise _. by apply main_body_raise_is_model_raise.
Qed.

Lemma raise_after_model_call_is_its_exception_witness :
  exists c evs,
    chat_log (snd (main_body (scripted stage3_raises) picture press_code_ui
                     new_session))
      = chat_log new_session ++ evs ++ [Sent c (Raise "quota exceeded")].
Proof.
  apply (raise_after_model_call_is_its_exception (scripted stage3_raises)
           picture press_code_ui new_session "quota exceeded").
  - reflexivity.
  - vm_compute. discriminate.
Defined.

(** X5. After a run of [main] in which a model call has been made,
    both keys of the session state are assigned, whether the calls
    returned or one of them raised: a failed pipeline run or chat turn
    leaves a session state that the next run can read. *)
Theorem session_keys_assigned_after_model_call respond inp w image :
  uploaded_file inp = Some image ->
  chat_log (snd (main respond inp w)) <> chat_log w ->
  is_Some (refined_html (session_state (snd (main respond inp w)))) /\
  is_Some (chat_history (session_state (snd (main respond inp w)))).
Proof.
  intros Hup _. unfold main.
  rewrite (bind_ok _ _ _ _ _ (eq_refl : show _ w = (Ok tt, _))).
  rewrite Hup. unfold try_except.
  match goal with
  | |- context [main_body respond image inp ?w0] =>
      pose proof (main_body_keys_assigned respond image inp w0) as Hkeys;
      destruct (main_body respond image inp w0) as [[[]|e] w1]
  end; exact Hkeys.
Qed.

Lemma session_keys_assigned_after_model_call_witness :
  is_Some (refined_html
             (session_state (snd (main (scripted stage3_raises)
                                    press_code_ui new_session)))) /\
  is_Some (chat_history
             (session_state (snd (main (scripted stage3_raises)
                                    press_code_ui new_session)))).
Proof.
  apply (session_keys_assigned_after_model_call (scripted stage3_raises)
           press_code_ui new_session picture).
  - reflexivity.
  - vm_compute. discriminate.
Defined.

(** In the model a run with a picture writes it under the name of the
    temporary file and touches no other file. *)
Lemma main_files respond inp w :
  files (snd (main respond inp w))
    = match uploaded_file inp with
      | Some image => <[tempfile_name inp := image]> (files w)
      | None => files w
      end.
Proof.
  unfold main.
  rewrite (bind_ok _ _ _ _ _ (eq_refl : show _ w = (Ok tt, _))).
  destruct (uploaded_file inp) as [image|]; [|done].
  set (w0 := set_screen _ w).
  assert (files (snd (main_body respond image inp w0))
            = <[tempfile_name inp := image]> (files w)) as Hbody.
  { unfold main_body.
    rewrite (bind_ok _ _ _ _ _ (eq_refl : show _ w0 = (Ok tt, _))).
    set (w1 := set_screen _ w0).
    rewrite (bind_ok _ _ _ _ _
               (eq_refl : save_temp_image image (tempfile_name inp) w1
                          = (Ok (tempfile_name inp), _))).
    match goal with
    | |- files (snd (?m ?w2)) = _ =>
        assert (keeps files m) as Hkeeps; [|by rewrite (Hkeeps w2)]
    end.
    apply keeps_bind; [apply init_session_state_keeps_files | intros _].
    apply keeps_bind; [|intros _].
    { destruct (button_code_ui inp);
        [apply code_ui_keeps_files | apply keeps_ret]. }
    apply keeps_bind; [apply display_chat_history_keeps_files | intros _].
    apply keeps_bind;
      [|intros _; apply display_refined_html_keeps_files].
    destruct (chat_input inp) as [t|]; [|apply keeps_ret].
    destruct (truthy t); [apply chat_turn_keeps_files | apply keeps_ret]. }
  unfold try_except.
  by destruct (main_body respond image inp w0) as [[[]|e] w1].
Qed.

(** X6. No run of the script deletes a file: a file that is there
    before the runs of a session is there after them.  The temporary
    files are made with [delete=False] (line 76) and nothing removes
    them, so they stay for the whole session. *)
Theorem temp_files_never_deleted respond inps w path :
  is_Some (files w !! path) ->
  is_Some (files (run_session respond inps w) !! path).
Proof.
  intros Hthere.
  apply (run_session_invariant respond
           (fun w => is_Some (files w !! path)) (fun _ => True));
    [|by apply Forall_forall|exact Hthere].
  intros inp _ w' Hfile.
  change (is_Some (files (run respond inp w') !! path)).
  rewrite run_as_main, main_files.
  destruct (uploaded_file inp) as [image|]; [|done].
  rewrite lookup_insert. by case_decide.
Qed.

Lemma temp_files_never_deleted_witness :
  is_Some
    (files (run_session echo [submit "make the button red"; press_code_ui_again]
              (run echo press_code_ui new_session))
       !! "/tmp/tmpk3x9.jpg").
Proof.
  apply (temp_files_never_deleted echo).
  rewrite run_as_main, main_files.
  cbn. rewrite lookup_insert_eq. by eexists.
Defined.

(** X7. Every execution of the script starts a new chat session before
    [main] runs (line 45 is at module level), so the model call of a chat
    turn is the first and only call of its chat session: none of the
    exchanges of the pipeline or of earlier chat turns is in it. *)
Theorem chat_turn_call_opens_its_session respond inp w image t :
  uploaded_file inp = Some image ->
  button_code_ui inp = false ->
  chat_input inp = Some t ->
  truthy t = true ->
  chat_log (run respond inp w)
    = chat_log w ++
      [ StartChat;
        Sent (Text (chat_refine_html_prompt (currentHTML w) t))
          (respond (chat_log w ++ [StartChat])
             (Text (chat_refine_html_prompt (currentHTML w) t))) ].
Proof.
  intros Hup Hbtn Hci Ht. rewrite run_as_main.
  destruct (main_chat_turn respond inp
              (set_chat_log (chat_log w ++ [StartChat]) w) image t
              Hup Hbtn Hci Ht) as [Hlog _].
  rewrite Hlog. cbn. by rewrite <- app_assoc.
Qed.

Lemma chat_turn_call_opens_its_session_witness :
  chat_log (run (scripted scenario_answers) (submit "make the button red")
              (run (scripted scenario_answers) press_code_ui new_session))
    = chat_log (run (scripted scenario_answers) press_code_ui new_session) ++
      [ StartChat;
        Sent (Text (chat_refine_html_prompt "<html>B</html>"
                      "make the button red"))
          (Ok "<html>B-red</html>") ].
Proof.
  exact (chat_turn_call_opens_its_session (scripted scenario_answers)
           (submit "make the button red")
           (run (scripted scenario_answers) press_code_ui new_session)
           picture "make the button red" eq_refl eq_refl eq_refl eq_refl).
Defined.

(** X8. A run of [main] only adds to the log of model calls, and adds at
    most what its widgets allow: four calls when the button is pressed,
    one when a non-empty text is submitted, and none without an uploaded
    file.  The script never calls the model on its own. *)
Theorem main_call_budget respond inp w :
  exists evs,
    chat_log (snd (main respond inp w)) = chat_log w ++ evs /\
    length evs <= calls_allowed inp.
Proof. apply main_adds. Qed.

(** X9. The page of a pipeline run whose four calls return: the title,
    the picture, the description and the refined description (the
    initial HTML of stage 3 is not shown), one chat message per entry of
    the history with the new entry last, and then, when the text of
    stage 4 is not empty, the code block, the preview and the download
    button, which offers exactly that text as [index.html], [text/html].
    When stage 4 returned the empty text none of the three is shown. *)
Theorem pipeline_run_page respond inp w image d rd h r :
  uploaded_file inp = Some image ->
  truthy (tempfile_name inp) = true ->
  button_code_ui inp = true ->
  submits_text inp = false ->
  stages_return respond (chat_log w) image d rd h r ->
  screen (snd (main respond inp w))
    = screen w
      ++ [ st_title "UI to HTML with Gemini";
           st_image image "Uploaded Image.";
           st_write d; st_write rd ]
      ++ shown_history (turnHistory w ++ [("Initial HTML Code", r)])
      ++ shown_html r.
Proof.
  destruct inp as [up name btn ci], w as [[rh ch] fs lg sc].
  unfold stages_return, stage_events, with_image, shown_html, shown_history.
  cbn [take uploaded_file tempfile_name button_code_ui chat_log].
  intros -> Hname -> Hci (H1 & H2 & H3 & H4).
  py_unfold in Hci. py_one_run. py_run.
  all: page_done.
Qed.

Lemma pipeline_run_page_witness :
  screen (snd (main (scripted scenario_answers) press_code_ui new_session))
    = [ st_title "UI to HTML with Gemini";
        st_image picture "Uploaded Image.";
        st_write "D"; st_write "RD";
        st_chat_message "Initial HTML Code" "<html>B</html>";
        st_code "<html>B</html>" "html";
        st_write "Preview:";
        st_components_html (html_with_js "<html>B</html>");
        st_download_button "Download HTML" "<html>B</html>" "index.html"
          "text/html" ].
Proof.
  apply (pipeline_run_page (scripted scenario_answers) press_code_ui
           new_session picture "D" "RD" "<html>A</html>" "<html>B</html>");
    try reflexivity.
  repeat split; reflexivity.
Defined.

(** X10. The page of a chat turn.  The entries of the history are shown
    once each, in order: the earlier ones by the loop of lines 108-110,
    the new ones by the turn itself.  When the call returns the new page
    follows (code block, preview, download).  When the call raises, the
    error message follows and nothing else: in that run the page that
    [currentHTML] still holds is not shown and cannot be downloaded. *)
Theorem chat_turn_page respond inp w image t :
  uploaded_file inp = Some image ->
  button_code_ui inp = false ->
  chat_input inp = Some t ->
  truthy t = true ->
  match respond (chat_log w)
          (Text (chat_refine_html_prompt (currentHTML w) t)) with
  | Ok u =>
      screen (snd (main respond inp w))
        = screen w
          ++ [ st_title "UI to HTML with Gemini";
               st_image image "Uploaded Image." ]
          ++ shown_history (turnHistory w ++ [("user", t); ("assistant", u)])
          ++ shown_html u
  | Raise e =>
      screen (snd (main respond inp w))
        = screen w
          ++ [ st_title "UI to HTML with Gemini";
               st_image image "Uploaded Image." ]
          ++ shown_history (turnHistory w ++ [("user", t)])
          ++ [st_error ("An error occurred: " +:+ e)]
  end.
Proof.
  destruct inp as [up name btn ci], w as [[rh ch] fs lg sc].
  unfold shown_html, shown_history.
  cbn [uploaded_file tempfile_name button_code_ui chat_input].
  intros -> -> -> Ht.
  py_one_run.
  destruct rh as [h0|], ch as [l0|]; py_run;
    match goal with
    | |- context [respond ?l ?c] => destruct (respond l c) as [u|e] eqn:Hu
    end; py_run.
  all: intros ->; cbn;
    repeat match goal with
           | H : truthy ?s = _ |- context [truthy ?s] => rewrite H
           end;
    cbn; rewrite ?map_app, <- ?app_assoc, ?app_nil_r; cbn; done.
Qed.

Lemma chat_turn_page_witness :
  screen (snd (main (scripted [])
                 (submit "make the button red")
                 (set_screen []
                    (snd (main (scripted scenario_answers) press_code_ui
                            new_session)))))
    = [ st_title "UI to HTML with Gemini";
        st_image picture "Uploaded Image.";
        st_chat_message "Initial HTML Code" "<html>B</html>";
        st_chat_message "user" "make the button red";
        st_error ("An error occurred: " +:+ "no answer left") ].
Proof.
  exact (chat_turn_page (scripted []) (submit "make the button red")
           (set_screen []
              (snd (main (scripted scenario_answers) press_code_ui
                      new_session)))
           picture "make the button red" eq_refl eq_refl eq_refl eq_refl).
Defined.

(** A run in which the picture is there, the button is not pressed and
    no text is submitted: the state, the log and the page. *)
Lemma idle_run respond inp w image :
  uploaded_file inp = Some image ->
  button_code_ui inp = false ->
  submits_text inp = false ->
  currentHTML (snd (main respond inp w)) = currentHTML w /\
  turnHistory (snd (main respond inp w)) = turnHistory w /\
  chat_log (snd (main respond inp w)) = chat_log w /\
  screen (snd (main respond inp w))
    = screen w
      ++ [ st_title "UI to HTML with Gemini";
           st_image image "Uploaded Image." ]
      ++ shown_history (turnHistory w)
      ++ shown_html (currentHTML w).
Proof.
  destruct inp as [up name btn ci], w as [[rh ch] fs lg sc].
  unfold shown_html, shown_history.
  cbn [uploaded_file tempfile_name button_code_ui chat_input].
  intros -> -> Hci. py_unfold in Hci.
  py_one_run. py_run.
  all: intros ->; cbn;
    repeat match goal with
           | H : truthy ?s = _ |- context [truthy ?s] => rewrite H
           end;
    cbn; rewrite <- ?app_assoc, ?app_nil_r; cbn; done.
Qed.

(** X11. A run in which the button is not pressed and no text is
    submitted (an empty text counts as none, line 114) changes neither
    [currentHTML] nor the turn history and makes no model call. *)
Theorem idle_run_keeps_state respond inp w image :
  uploaded_file inp = Some image ->
  button_code_ui inp = false ->
  submits_text inp = false ->
  currentHTML (snd (main respond inp w)) = currentHTML w /\
  turnHistory (snd (main respond inp w)) = turnHistory w /\
  chat_log (snd (main respond inp w)) = chat_log w.
Proof.
  intros Hup Hbtn Hci.
  destruct (idle_run respond inp w image Hup Hbtn Hci)
    as (Hhtml & Hhist & Hlog & _).
  by repeat split.
Qed.

Lemma idle_run_keeps_state_witness :
  currentHTML
    (snd (main echo idle
            (snd (main (scripted scenario_answers) press_code_ui new_session))))
    = "<html>B</html>" /\
  turnHistory
    (snd (main echo idle
            (snd (main (scripted scenario_answers) press_code_ui new_session))))
    = [("Initial HTML Code", "<html>B</html>")] /\
  length
    (chat_log
       (snd (main echo idle
               (snd (main (scripted scenario_answers) press_code_ui
                       new_session))))) = 4.
Proof.
  destruct (idle_run_keeps_state echo idle
              (snd (main (scripted scenario_answers) press_code_ui new_session))
              picture eq_refl eq_refl eq_refl) as (Hhtml & Hhist & Hlog).
  rewrite Hhtml, Hhist, Hlog. by repeat split.
Defined.
